(** * go-dqlite: the node facade of [server.go]

    A shallow embedding of package [dqlite] (file [server.go]): the [Node]
    facade, its constructor and options, the membership operations
    [Cluster], [Leader], [Join], [Leave] and the lifecycle operations
    [Start] and [Close].

    The facade talks to two collaborators whose code lives in other
    packages: the engine ([internal/bindings]) and the wire protocol
    ([internal/protocol]).  Both are kept abstract.  Every call that leaves
    the package is answered by an oracle of a [World], which may look at the
    whole history of earlier calls, and is appended to that history as an
    [Event].  The facade's functions are written in a small state monad over
    the history, so that theorems can speak about which calls were made, in
    which order and with which arguments. *)

From Stdlib Require Import List String NArith ZArith.
From Stdlib Require Import DecimalString DecimalN DecimalPos.
Import ListNotations.
Local Open Scope string_scope.
Local Open Scope list_scope.

(** ** Imported packages: data *)

(** [github.com/pkg/errors], as far as [server.go] uses it. *)
Module errors.

(** An error value is either a leaf produced by a collaborator or the
    result of wrapping a cause with a message. *)
Inductive error : Type :=
  | New (text : string)
  | Wrapped (cause : error) (message : string).

(** [errors.Wrap(err, message)]: [nil] stays [nil]. *)
Definition Wrap (err : option error) (message : string) : option error :=
  match err with
  | None => None
  | Some cause => Some (Wrapped cause message)
  end.

(** The message of the outermost wrapper, if the error is a wrapper. *)
Definition annotation (e : error) : option string :=
  match e with
  | New _ => None
  | Wrapped _ message => Some message
  end.

End errors.

Definition error : Type := errors.error.

(** A Go pair [(value, error)] read by the usual convention: the value is
    looked at only when the error is [nil]. *)
Inductive result (A : Type) : Type :=
| Ok (a : A)
| Err (e : error).
Arguments Ok {A} a.
Arguments Err {A} e.

(** Package [time]: a [Duration] is a count of nanoseconds. *)
Module time.
Definition Duration := Z.
Definition Nanosecond : Duration := 1%Z.
Definition Microsecond : Duration := (1000 * Nanosecond)%Z.
Definition Millisecond : Duration := (1000 * Microsecond)%Z.
Definition Second : Duration := (1000 * Millisecond)%Z.
End time.

(** [github.com/Rican7/retry/backoff] and [.../strategy]: only the two
    constructors the facade names; what they compute is the retry
    library's business. *)
Module backoff.
Inductive Algorithm : Type :=
  | BinaryExponential (factor : time.Duration).
End backoff.

Module strategy.
Inductive Strategy : Type :=
  | Backoff (algorithm : backoff.Algorithm).
End strategy.

(** Unsigned 64-bit identifiers. *)
Definition uint64 := N.

(** [uint(x)] for a [uint64]; [uint] is 64 bits wide on the platforms the
    engine builds for. *)
Definition UintSize : N := 64.
Definition uint (x : uint64) : N := (x mod 2 ^ UintSize)%N.

(** Package [client]. *)
Module client.

Record NodeInfo : Type := { ID : uint64; Address : string }.

(** Modelled from the spec: the function types [LogFunc] and [DialFunc]
    are declared outside [server.go].  A function value is either [nil]
    or a function; functions are told apart by a tag, which is all the
    facade ever does with them (it compares with [nil] and passes them
    on). *)
Inductive logger : Type := stdLogger | userLogger (tag : nat).
Definition LogFunc := option logger.
Definition DefaultLogFunc : LogFunc := Some stdLogger.

Inductive dialer : Type := tcpDialer | unixDialer | userDialer (tag : nat).
Definition DialFunc := option dialer.

(** Modelled from the spec: the interface [NodeStore] is declared outside
    [server.go]; the facade only hands it to the connector. *)
Inductive NodeStore : Type := nilStore | storeRef (tag : nat).

End client.

(** Package [context]: the facade only passes contexts on. *)
Module context.
Inductive Context : Type := ctxRef (tag : nat).
End context.

(** Package [internal/protocol]: the data the facade builds or names. *)
Module protocol.

(** Modelled from the spec: the protocol version constants are declared
    outside [server.go]; the spec describes them as distinct integer tags
    ([Legacy], [One]). *)
Inductive Version : Type := VersionLegacy | VersionOne.

Definition DialFunc := client.DialFunc.
Definition TCPDial : DialFunc := Some client.tcpDialer.
Definition UnixDial : DialFunc := Some client.unixDialer.

Record Config : Type := {
  Dial : DialFunc;
  AttemptTimeout : time.Duration;
  RetryStrategies : list strategy.Strategy
}.

(** What [NewConnector(id, store, config, log)] is given. *)
Record Connector : Type := {
  connector_id : uint64;
  connector_store : client.NodeStore;
  connector_config : Config;
  connector_log : client.LogFunc
}.

Definition NewConnector (id : uint64) (store : client.NodeStore)
    (config : Config) (log : client.LogFunc) : Connector :=
  {| connector_id := id; connector_store := store;
     connector_config := config; connector_log := log |}.

(** A live connection, [*protocol.Protocol], known by its identity. *)
Definition Protocol := nat.

End protocol.

(** Package [internal/bindings]: the engine handle, [*bindings.Node]. *)
Module bindings.
Definition Node := nat.
End bindings.

(** The message codec of [internal/protocol].  Its code is outside
    [server.go]; the facade is verified for every codec. *)
Class Wire : Type := {
  Message : Type;
(** [protocol.Message{}] *)
  Message_zero : Message;
(** [m.Init(n)] *)
  Message_Init : Message -> N -> Message;
  EncodeCluster : Message -> Message;
  EncodeLeader : Message -> Message;
  EncodeJoin : Message -> uint64 -> string -> Message;
  EncodePromote : Message -> uint64 -> Message;
  EncodeRemove : Message -> uint64 -> Message;
  DecodeNodes : Message -> result (list client.NodeInfo);
  DecodeNode : Message -> result (uint64 * string)
}.

(** ** Calls that leave the package *)

Section Boundary.
Context {wire : Wire}.

(** One record per call, with its arguments and what it returned.
    [Call] may write into both message buffers, so it reports both. *)
Inductive Event : Type :=
  | EvNewNode (id : N) (address dir : string) (r : result bindings.Node)
  | EvSetDialFunc (server : bindings.Node) (dial : protocol.DialFunc)
    (r : option error)
  | EvSetBindAddress (server : bindings.Node) (address : string)
    (r : option error)
  | EvGetBindAddress (server : bindings.Node) (r : string)
  | EvStart (server : bindings.Node) (r : option error)
  | EvStop (server : bindings.Node) (r : option error)
  | EvServerClose (server : bindings.Node)
  | EvConnect (ctx : context.Context) (dial : protocol.DialFunc)
    (address : string) (version : protocol.Version)
    (r : result protocol.Protocol)
  | EvConnectorConnect (connector : protocol.Connector)
    (ctx : context.Context) (r : result protocol.Protocol)
  | EvCall (c : protocol.Protocol) (ctx : context.Context)
    (request response : Message)
    (request' response' : Message) (r : option error)
  | EvProtocolClose (c : protocol.Protocol).

Definition History := list Event.

(** The collaborators.  Each answer may depend on everything that
    happened before. *)
Record World : Type := {
  w_NewNode : History -> N -> string -> string -> result bindings.Node;
  w_SetDialFunc :
    History -> bindings.Node -> protocol.DialFunc -> option error;
  w_SetBindAddress : History -> bindings.Node -> string -> option error;
  w_GetBindAddress : History -> bindings.Node -> string;
  w_Start : History -> bindings.Node -> option error;
  w_Stop : History -> bindings.Node -> option error;
  w_Connect :
    History -> context.Context -> protocol.DialFunc -> string ->
    protocol.Version -> result protocol.Protocol;
  w_ConnectorConnect :
    History -> protocol.Connector -> context.Context ->
    result protocol.Protocol;
  w_Call :
    History -> protocol.Protocol -> context.Context ->
    Message -> Message -> Message * Message * option error
  }.

(** The monad: a computation reads the history and extends it. *)
Definition M (A : Type) : Type := History -> A * History.

Definition ret {A} (a : A) : M A := fun h => (a, h).

Definition bind {A B} (m : M A) (k : A -> M B) : M B :=
  fun h => let (a, h') := m h in k a h'.

(** [defer cleanup] at the top of a block: the cleanup runs when the
    block is left, whatever it returns. *)
Definition defer {A} (cleanup : M unit) (body : M A) : M A :=
  bind body (fun a => bind cleanup (fun _ => ret a)).

End Boundary.

Declare Scope go_scope.
Delimit Scope go_scope with go.
Notation "x <- c1 ;; c2" := (bind c1 (fun x => c2))
  (at level 61, c1 at next level, right associativity) : go_scope.
Notation "c1 ;;; c2" := (bind c1 (fun _ => c2))
  (at level 61, right associativity) : go_scope.
Local Open Scope go_scope.

(** ** The collaborators' operations, as computations *)

Section Collaborators.
Context {wire : Wire}.
Variable w : World.

(** Append one event to the history and return the collaborator's answer. *)
Definition emit {A} (answer : History -> A) (record : A -> Event) : M A :=
  fun h => let a := answer h in (a, h ++ [record a]).

(** [bindings.NewNode(id, address, dir)] *)
Definition bindings_NewNode (id : N) (address dir : string)
  : M (result bindings.Node) :=
  emit (fun h => w_NewNode w h id address dir) (EvNewNode id address dir).

(** [server.SetDialFunc(dial)] *)
Definition server_SetDialFunc (server : bindings.Node)
    (dial : protocol.DialFunc) : M (option error) :=
  emit (fun h => w_SetDialFunc w h server dial) (EvSetDialFunc server dial).

(** [server.SetBindAddress(address)] *)
Definition server_SetBindAddress (server : bindings.Node) (address : string)
  : M (option error) :=
  emit (fun h => w_SetBindAddress w h server address)
       (EvSetBindAddress server address).

(** [server.GetBindAddress()] *)
Definition server_GetBindAddress (server : bindings.Node) : M string :=
  emit (fun h => w_GetBindAddress w h server) (EvGetBindAddress server).

(** [server.Start()] *)
Definition server_Start (server : bindings.Node) : M (option error) :=
  emit (fun h => w_Start w h server) (EvStart server).

(** [server.Stop()] *)
Definition server_Stop (server : bindings.Node) : M (option error) :=
  emit (fun h => w_Stop w h server) (EvStop server).

(** [server.Close()]: returns nothing. *)
Definition server_Close (server : bindings.Node) : M unit :=
  emit (fun _ => tt) (fun _ => EvServerClose server).

(** [protocol.Connect(ctx, dial, address, version)] *)
Definition protocol_Connect (ctx : context.Context)
    (dial : protocol.DialFunc) (address : string)
    (version : protocol.Version) : M (result protocol.Protocol) :=
  emit (fun h => w_Connect w h ctx dial address version)
       (EvConnect ctx dial address version).

(** [connector.Connect(ctx)] *)
Definition connector_Connect (connector : protocol.Connector)
    (ctx : context.Context) : M (result protocol.Protocol) :=
  emit (fun h => w_ConnectorConnect w h connector ctx)
       (EvConnectorConnect connector ctx).

(** [c.Call(ctx, &request, &response)]: the two buffers as the call left
    them, and the error. *)
Definition c_Call (c : protocol.Protocol) (ctx : context.Context)
    (request response : Message) : M (Message * Message * option error) :=
  emit (fun h => w_Call w h c ctx request response)
       (fun a => EvCall c ctx request response (fst (fst a)) (snd (fst a))
                        (snd a)).

(** [c.Close()]: whatever it returns, [server.go] drops it. *)
Definition c_Close (c : protocol.Protocol) : M unit :=
  emit (fun _ => tt) (fun _ => EvProtocolClose c).

End Collaborators.

(** ** Package [dqlite] *)

(** [make(chan error, n)]: a buffered channel, empty when made. *)
Record chan (A : Type) : Type := { chan_cap : nat; chan_buf : list A }.
Arguments chan_cap {A} c.
Arguments chan_buf {A} c.
Definition make_chan (A : Type) (n : nat) : chan A :=
  {| chan_cap := n; chan_buf := [] |}.

(** [type Node struct] *)
Record Node : Type := {
  log : client.LogFunc;
  server : bindings.Node;
  acceptCh : chan error;
  id : uint64;
  address : string;
  bindAddress : string
}.

(** [type serverOptions struct] *)
Record serverOptions : Type := {
  Log : client.LogFunc;
  DialFunc : client.DialFunc;
  BindAddress : string
}.

(** [type NodeOption]: a function that updates the options in place. *)
Definition NodeOption : Type := serverOptions -> serverOptions.

Definition WithNodeLogFunc (log : client.LogFunc) : NodeOption :=
  fun options =>
    {| Log := log;
       DialFunc := DialFunc options;
       BindAddress := BindAddress options |}.

Definition WithNodeDialFunc (dial : client.DialFunc) : NodeOption :=
  fun options =>
    {| Log := Log options;
       DialFunc := dial;
       BindAddress := BindAddress options |}.

Definition WithNodeBindAddress (address : string) : NodeOption :=
  fun options =>
    {| Log := Log options;
       DialFunc := DialFunc options;
       BindAddress := address |}.

(** [defaultNodeOptions]: the fields not named are zero values. *)
Definition defaultNodeOptions : serverOptions :=
  {| Log := client.DefaultLogFunc; DialFunc := None; BindAddress := "" |}.

(** The loop [for _, option := range options { option(o) }]. *)
Definition applyOptions (options : list NodeOption) (o : serverOptions)
  : serverOptions :=
  fold_left (fun o option => option o) options o.

(** [fmt.Sprintf("%d", n)] for an unsigned [n]. *)
Definition Sprintf_d (n : N) : string :=
  NilZero.string_of_uint (N.to_uint n).

(** [fmt.Sprintf("@dqlite-%d", id)] *)
Definition defaultBindAddress (id : uint64) : string :=
  ("@dqlite-" ++ Sprintf_d id)%string.

Section Facade.
Context {wire : Wire}.
Variable w : World.

(** [func NewNode(info, dir, options...)]: a [Node] pointer and an error. *)
Definition NewNode (info : client.NodeInfo) (dir : string)
    (options : list NodeOption) : M (option Node * option error) :=
  let o := applyOptions options defaultNodeOptions in
  r <- bindings_NewNode w (uint (client.ID info)) (client.Address info) dir ;;
  match r with
  | Err err => ret (None, Some err)
  | Ok server =>
    err <- match DialFunc o with
           | Some _ => server_SetDialFunc w server (DialFunc o)
           | None => ret None
           end ;;
    match err with
    | Some err => ret (None, Some err)
    | None =>
      let bindAddress := defaultBindAddress (client.ID info) in
      let bindAddress :=
        if String.eqb (BindAddress o) "" then bindAddress
        else BindAddress o in
      err <- server_SetBindAddress w server bindAddress ;;
      match err with
      | Some err => ret (None, Some err)
      | None =>
        let s := {| log := Log o;
                    server := server;
                    acceptCh := make_chan error 1;
                    id := client.ID info;
                    address := client.Address info;
                    bindAddress := bindAddress |} in
        ret (Some s, None)
      end
    end
  end.

(** [func (s *Node) BindAddress() string] *)
Definition Node_BindAddress (s : Node) : M string :=
  server_GetBindAddress w (server s).

(** [func (s *Node) Cluster(ctx) ([]client.NodeInfo, error)] *)
Definition Node_Cluster (s : Node) (ctx : context.Context)
  : M (list client.NodeInfo * option error) :=
  r <- protocol_Connect w ctx protocol.UnixDial (bindAddress s)
         protocol.VersionLegacy ;;
  match r with
  | Err err =>
    ret ([], errors.Wrap (Some err) "failed to connect to dqlite task")
  | Ok c =>
    defer (c_Close c) (
      let request := Message_Init Message_zero 16 in
      let response := Message_Init Message_zero 512 in
      let request := EncodeCluster request in
      called <- c_Call w c ctx request response ;;
      let '(request, response, err) := called in
      match err with
      | Some _ => ret ([], errors.Wrap err "failed to send Cluster request")
      | None =>
        match DecodeNodes response with
        | Err err =>
          ret ([], errors.Wrap (Some err) "failed to parse Node response")
        | Ok servers => ret (servers, None)
        end
      end)
  end.

(** [func (s *Node) Leader(ctx)]: a [NodeInfo] pointer and an error. *)
Definition Node_Leader (s : Node) (ctx : context.Context)
  : M (option client.NodeInfo * option error) :=
  r <- protocol_Connect w ctx protocol.UnixDial (bindAddress s)
         protocol.VersionOne ;;
  match r with
  | Err err =>
    ret (None, errors.Wrap (Some err) "failed to connect to dqlite task")
  | Ok p =>
    defer (c_Close p) (
      let request := Message_Init Message_zero 16 in
      let response := Message_Init Message_zero 512 in
      let request := EncodeLeader request in
      called <- c_Call w p ctx request response ;;
      let '(request, response, err) := called in
      match err with
      | Some _ => ret (None, errors.Wrap err "failed to send Leader request")
      | None =>
        match DecodeNode response with
        | Err err =>
          ret (None, errors.Wrap (Some err) "failed to parse Node response")
        | Ok (id, address) =>
          let info := {| client.ID := id; client.Address := address |} in
          ret (Some info, None)
        end
      end)
  end.

(** [func (s *Node) Start() error] *)
Definition Node_Start (s : Node) : M (option error) :=
  server_Start w (server s).

(** [func (s *Node) Join(ctx, store, dial) error] *)
Definition Node_Join (s : Node) (ctx : context.Context)
    (store : client.NodeStore) (dial : client.DialFunc) : M (option error) :=
  let dial := match dial with
              | None => protocol.TCPDial
              | Some _ => dial
              end in
  let config :=
    {| protocol.Dial := dial;
       protocol.AttemptTimeout := time.Second;
       protocol.RetryStrategies :=
         [strategy.Backoff (backoff.BinaryExponential time.Millisecond)] |} in
  let connector := protocol.NewConnector 0%N store config (log s) in
  r <- connector_Connect w connector ctx ;;
  match r with
  | Err err => ret (Some err)
  | Ok c =>
    defer (c_Close c) (
      let request := Message_Init Message_zero 4096 in
      let response := Message_Init Message_zero 4096 in
      let request := EncodeJoin request (id s) (address s) in
      called <- c_Call w c ctx request response ;;
      let '(request, response, err) := called in
      match err with
      | Some _ => ret err
      | None =>
        let request := EncodePromote request (id s) in
        called <- c_Call w c ctx request response ;;
        let '(request, response, err) := called in
        match err with
        | Some _ => ret err
        | None => ret None
        end
      end)
  end.

(** [func Leave(ctx, id, store, dial) error] *)
Definition Leave (ctx : context.Context) (id : uint64)
    (store : client.NodeStore) (dial : client.DialFunc) : M (option error) :=
  let dial := match dial with
              | None => protocol.TCPDial
              | Some _ => dial
              end in
  let config :=
    {| protocol.Dial := dial;
       protocol.AttemptTimeout := time.Second;
       protocol.RetryStrategies :=
         [strategy.Backoff (backoff.BinaryExponential time.Millisecond)] |} in
  let connector :=
    protocol.NewConnector 0%N store config client.DefaultLogFunc in
  r <- connector_Connect w connector ctx ;;
  match r with
  | Err err => ret (Some err)
  | Ok c =>
    defer (c_Close c) (
      let request := Message_Init Message_zero 4096 in
      let response := Message_Init Message_zero 4096 in
      let request := EncodeRemove request id in
      called <- c_Call w c ctx request response ;;
      let '(request, response, err) := called in
      match err with
      | Some _ => ret err
      | None => ret None
      end)
  end.

(** [func (s *Node) Close() error] *)
Definition Node_Close (s : Node) : M (option error) :=
  err <- server_Stop w (server s) ;;
  match err with
  | Some _ => ret (errors.Wrap err "server failed to stop")
  | None =>
    server_Close (server s) ;;;
    ret None
  end.

End Facade.

(** ** Reading histories *)

Section Histories.
Context {wire : Wire}.

(** The error a call reported, if it reported one. *)
Definition reported (ev : Event) : option error :=
  match ev with
  | EvNewNode _ _ _ (Err e) => Some e
  | EvSetDialFunc _ _ r => r
  | EvSetBindAddress _ _ r => r
  | EvStart _ r => r
  | EvStop _ r => r
  | EvConnect _ _ _ _ (Err e) => Some e
  | EvConnectorConnect _ _ (Err e) => Some e
  | EvCall _ _ _ _ _ _ r => r
  | _ => None
  end.

(** The connection a call handed out, if it handed one out. *)
Definition opened (ev : Event) : option protocol.Protocol :=
  match ev with
  | EvConnect _ _ _ _ (Ok c) => Some c
  | EvConnectorConnect _ _ (Ok c) => Some c
  | _ => None
  end.

(** An attempt to get a connection, successful or not. *)
Definition is_connect (ev : Event) : bool :=
  match ev with
  | EvConnect _ _ _ _ _ => true
  | EvConnectorConnect _ _ _ => true
  | _ => false
  end.

(** A request/response exchange. *)
Definition is_call (ev : Event) : bool :=
  match ev with
  | EvCall _ _ _ _ _ _ _ => true
  | _ => false
  end.

(** The event closes connection [c]. *)
Definition closes (c : protocol.Protocol) (ev : Event) : bool :=
  match ev with
  | EvProtocolClose c' => Nat.eqb c c'
  | _ => false
  end.

(** A call on the engine that releases its resources. *)
Definition is_release (ev : Event) : bool :=
  match ev with
  | EvServerClose _ => true
  | _ => false
  end.

(** A step of the construction of an engine. *)
Definition is_SetDialFunc (ev : Event) : bool :=
  match ev with
  | EvSetDialFunc _ _ _ => true
  | _ => false
  end.

End Histories.

(** ** The call sequences of each function

    One constructor per path through the function: the events the path
    adds to the history, in order, and what the function returns. *)

Section Runs.
Context {wire : Wire}.

Inductive NewNodeRun (info : client.NodeInfo) (dir : string)
    (o : serverOptions)
  : list Event -> option Node * option error -> Prop :=
| NewNodeRun_engine e :
    NewNodeRun info dir o
      [EvNewNode (uint (client.ID info)) (client.Address info) dir (Err e)]
      (None, Some e)
| NewNodeRun_dial server d e :
    DialFunc o = Some d ->
    NewNodeRun info dir o
      [EvNewNode (uint (client.ID info)) (client.Address info) dir
         (Ok server);
       EvSetDialFunc server (Some d) (Some e)]
      (None, Some e)
| NewNodeRun_bind server pre addr e :
    pre = match DialFunc o with
          | Some d => [EvSetDialFunc server (Some d) None]
          | None => []
          end ->
    addr = (if String.eqb (BindAddress o) ""
            then defaultBindAddress (client.ID info) else BindAddress o) ->
    NewNodeRun info dir o
      (EvNewNode (uint (client.ID info)) (client.Address info) dir
         (Ok server)
       :: pre ++ [EvSetBindAddress server addr (Some e)])
      (None, Some e)
| NewNodeRun_ok server pre addr :
    pre = match DialFunc o with
          | Some d => [EvSetDialFunc server (Some d) None]
          | None => []
          end ->
    addr = (if String.eqb (BindAddress o) ""
            then defaultBindAddress (client.ID info) else BindAddress o) ->
    NewNodeRun info dir o
      (EvNewNode (uint (client.ID info)) (client.Address info) dir
         (Ok server)
       :: pre ++ [EvSetBindAddress server addr None])
      (Some {| log := Log o; server := server;
               acceptCh := make_chan error 1;
               id := client.ID info; address := client.Address info;
               bindAddress := addr |}, None).

Inductive ClusterRun (s : Node) (ctx : context.Context)
  : list Event -> list client.NodeInfo * option error -> Prop :=
| ClusterRun_connect e :
    ClusterRun s ctx
      [EvConnect ctx protocol.UnixDial (bindAddress s)
         protocol.VersionLegacy (Err e)]
      ([], Some (errors.Wrapped e "failed to connect to dqlite task"))
| ClusterRun_send c rq rs e :
    ClusterRun s ctx
      [EvConnect ctx protocol.UnixDial (bindAddress s)
         protocol.VersionLegacy (Ok c);
       EvCall c ctx (EncodeCluster (Message_Init Message_zero 16))
         (Message_Init Message_zero 512) rq rs (Some e);
       EvProtocolClose c]
      ([], Some (errors.Wrapped e "failed to send Cluster request"))
| ClusterRun_parse c rq rs e :
    DecodeNodes rs = Err e ->
    ClusterRun s ctx
      [EvConnect ctx protocol.UnixDial (bindAddress s)
         protocol.VersionLegacy (Ok c);
       EvCall c ctx (EncodeCluster (Message_Init Message_zero 16))
         (Message_Init Message_zero 512) rq rs None;
       EvProtocolClose c]
      ([], Some (errors.Wrapped e "failed to parse Node response"))
| ClusterRun_ok c rq rs servers :
    DecodeNodes rs = Ok servers ->
    ClusterRun s ctx
      [EvConnect ctx protocol.UnixDial (bindAddress s)
         protocol.VersionLegacy (Ok c);
       EvCall c ctx (EncodeCluster (Message_Init Message_zero 16))
         (Message_Init Message_zero 512) rq rs None;
       EvProtocolClose c]
      (servers, None).

Inductive LeaderRun (s : Node) (ctx : context.Context)
  : list Event -> option client.NodeInfo * option error -> Prop :=
| LeaderRun_connect e :
    LeaderRun s ctx
      [EvConnect ctx protocol.UnixDial (bindAddress s)
         protocol.VersionOne (Err e)]
      (None, Some (errors.Wrapped e "failed to connect to dqlite task"))
| LeaderRun_send c rq rs e :
    LeaderRun s ctx
      [EvConnect ctx protocol.UnixDial (bindAddress s)
         protocol.VersionOne (Ok c);
       EvCall c ctx (EncodeLeader (Message_Init Message_zero 16))
         (Message_Init Message_zero 512) rq rs (Some e);
       EvProtocolClose c]
      (None, Some (errors.Wrapped e "failed to send Leader request"))
| LeaderRun_parse c rq rs e :
    DecodeNode rs = Err e ->
    LeaderRun s ctx
      [EvConnect ctx protocol.UnixDial (bindAddress s)
         protocol.VersionOne (Ok c);
       EvCall c ctx (EncodeLeader (Message_Init Message_zero 16))
         (Message_Init Message_zero 512) rq rs None;
       EvProtocolClose c]
      (None, Some (errors.Wrapped e "failed to parse Node response"))
| LeaderRun_ok c rq rs leaderID leaderAddress :
    DecodeNode rs = Ok (leaderID, leaderAddress) ->
    LeaderRun s ctx
      [EvConnect ctx protocol.UnixDial (bindAddress s)
         protocol.VersionOne (Ok c);
       EvCall c ctx (EncodeLeader (Message_Init Message_zero 16))
         (Message_Init Message_zero 512) rq rs None;
       EvProtocolClose c]
      (Some {| client.ID := leaderID; client.Address := leaderAddress |},
       None).

(** The configuration [Join] and [Leave] give their connector. *)
Definition connectorConfig (dial : client.DialFunc) : protocol.Config :=
  {| protocol.Dial := match dial with
                      | None => protocol.TCPDial
                      | Some _ => dial
                      end;
     protocol.AttemptTimeout := time.Second;
     protocol.RetryStrategies :=
       [strategy.Backoff (backoff.BinaryExponential time.Millisecond)] |}.

Inductive JoinRun (s : Node) (ctx : context.Context)
    (store : client.NodeStore) (dial : client.DialFunc)
  : list Event -> option error -> Prop :=
| JoinRun_connect e :
    JoinRun s ctx store dial
      [EvConnectorConnect
         (protocol.NewConnector 0%N store (connectorConfig dial) (log s))
         ctx (Err e)]
      (Some e)
| JoinRun_join c rq rs e :
    JoinRun s ctx store dial
      [EvConnectorConnect
         (protocol.NewConnector 0%N store (connectorConfig dial) (log s))
         ctx (Ok c);
       EvCall c ctx
         (EncodeJoin (Message_Init Message_zero 4096) (id s) (address s))
         (Message_Init Message_zero 4096) rq rs (Some e);
       EvProtocolClose c]
      (Some e)
| JoinRun_promote c rq rs rq' rs' r :
    JoinRun s ctx store dial
      [EvConnectorConnect
         (protocol.NewConnector 0%N store (connectorConfig dial) (log s))
         ctx (Ok c);
       EvCall c ctx
         (EncodeJoin (Message_Init Message_zero 4096) (id s) (address s))
         (Message_Init Message_zero 4096) rq rs None;
       EvCall c ctx (EncodePromote rq (id s)) rs rq' rs' r;
       EvProtocolClose c]
      r.

Inductive LeaveRun (ctx : context.Context) (target : uint64)
    (store : client.NodeStore) (dial : client.DialFunc)
  : list Event -> option error -> Prop :=
| LeaveRun_connect e :
    LeaveRun ctx target store dial
      [EvConnectorConnect
         (protocol.NewConnector 0%N store (connectorConfig dial)
            client.DefaultLogFunc)
         ctx (Err e)]
      (Some e)
| LeaveRun_remove c rq rs r :
    LeaveRun ctx target store dial
      [EvConnectorConnect
         (protocol.NewConnector 0%N store (connectorConfig dial)
            client.DefaultLogFunc)
         ctx (Ok c);
       EvCall c ctx
         (EncodeRemove (Message_Init Message_zero 4096) target)
         (Message_Init Message_zero 4096) rq rs r;
       EvProtocolClose c]
      r.

Inductive CloseRun (s : Node) : list Event -> option error -> Prop :=
| CloseRun_stop e :
    CloseRun s [EvStop (server s) (Some e)]
      (Some (errors.Wrapped e "server failed to stop"))
| CloseRun_ok :
    CloseRun s [EvStop (server s) None; EvServerClose (server s)] None.

End Runs.

(** ** Operations as data *)

(** The four operations that go over the network. *)
Inductive Operation : Type :=
| OpCluster (s : Node) (ctx : context.Context)
| OpLeader (s : Node) (ctx : context.Context)
| OpJoin (s : Node) (ctx : context.Context) (store : client.NodeStore)
    (dial : client.DialFunc)
| OpLeave (ctx : context.Context) (target : uint64)
    (store : client.NodeStore) (dial : client.DialFunc).

(** The methods of a [Node]. *)
Inductive Method : Type :=
| CallBindAddress
| CallCluster (ctx : context.Context)
| CallLeader (ctx : context.Context)
| CallStart
| CallJoin (ctx : context.Context) (store : client.NodeStore)
    (dial : client.DialFunc)
| CallClose.

Section Operations.
Context {wire : Wire}.
Variable w : World.

(** Run an operation and keep the error it returns. *)
Definition perform (op : Operation) : M (option error) :=
  match op with
  | OpCluster s ctx => r <- Node_Cluster w s ctx ;; ret (snd r)
  | OpLeader s ctx => r <- Node_Leader w s ctx ;; ret (snd r)
  | OpJoin s ctx store dial => Node_Join w s ctx store dial
  | OpLeave ctx target store dial => Leave w ctx target store dial
  end.

(** Call a method on [s] and return the receiver as the method leaves it.
    No method of [server.go] assigns to a field of its receiver, so that
    is [s]. *)
Definition invoke (s : Node) (m : Method) : M Node :=
  match m with
  | CallBindAddress => Node_BindAddress w s ;;; ret s
  | CallCluster ctx => Node_Cluster w s ctx ;;; ret s
  | CallLeader ctx => Node_Leader w s ctx ;;; ret s
  | CallStart => Node_Start w s ;;; ret s
  | CallJoin ctx store dial => Node_Join w s ctx store dial ;;; ret s
  | CallClose => Node_Close w s ;;; ret s
  end.

(** A sequence of method calls on one node. *)
Fixpoint invokeAll (s : Node) (ms : list Method) : M Node :=
  match ms with
  | [] => ret s
  | m :: ms' => s' <- invoke s m ;; invokeAll s' ms'
  end.

End Operations.

(** ** What an operation's wrappers say *)

Section Phases.
Context {wire : Wire}.

(** The error decoding the response [m] of operation [op] gives, if it
    gives one; [Join] and [Leave] decode nothing. *)
Definition decodeError (op : Operation) (m : Message) : option error :=
  match op with
  | OpCluster _ _ =>
    match DecodeNodes m with
    | Err e => Some e
    | Ok _ => None
    end
  | OpLeader _ _ =>
    match DecodeNode m with
    | Err e => Some e
    | Ok _ => None
    end
  | _ => None
  end.

(** The description [Cluster] and [Leader] put on a failed exchange. *)
Definition sendDescription (op : Operation) : string :=
  match op with
  | OpCluster _ _ => "failed to send Cluster request"
  | OpLeader _ _ => "failed to send Leader request"
  | _ => ""
  end.

(** [Cluster] and [Leader] describe their errors, [Join] and [Leave] do
    not. *)
Definition describes (op : Operation) : bool :=
  match op with
  | OpCluster _ _ => true
  | OpLeader _ _ => true
  | _ => false
  end.

End Phases.

(** ** A concrete codec and concrete worlds, for running the model *)

(** A toy message: what was last written into the buffer. *)
Inductive frame : Type :=
| Blank (capacity : N)
| Request (operation : string) (target : uint64) (address : string)
| NodeFrame (leaderID : uint64) (leaderAddress : string)
| NodesFrame (servers : list client.NodeInfo)
| Ack.

Definition testWire : Wire :=
  {| Message := frame;
     Message_zero := Blank 0%N;
     Message_Init := fun _ n => Blank n;
     EncodeCluster := fun _ => Request "Cluster" 0%N "";
     EncodeLeader := fun _ => Request "Leader" 0%N "";
     EncodeJoin := fun _ i a => Request "Join" i a;
     EncodePromote := fun _ i => Request "Promote" i "";
     EncodeRemove := fun _ i => Request "Remove" i "";
     DecodeNodes := fun m =>
       match m with
       | NodesFrame servers => Ok servers
       | _ => Err (errors.New "unexpected response")
       end;
     DecodeNode := fun m =>
       match m with
       | NodeFrame i a => Ok (i, a)
       | _ => Err (errors.New "unexpected response")
       end |}.

(** The operation a request frame names. *)
Definition operationOf (m : frame) : string :=
  match m with
  | Request operation _ _ => operation
  | _ => ""
  end.

(** A peer that knows one member and no leader: it answers a Leader
    request with the pair (0, empty address). *)
Definition testAnswer (request : frame) : frame :=
  if String.eqb (operationOf request) "Cluster"
  then NodesFrame [{| client.ID := 1%N; client.Address := "10.0.0.1:9001" |}]
  else if String.eqb (operationOf request) "Leader"
  then NodeFrame 0%N ""
  else Ack.

(** A world with fixed answers, in the order of the fields of [World]:
    engine construction, [SetDialFunc], [SetBindAddress],
    [GetBindAddress], [Start], [Stop], the two ways to connect, and
    [Call]; [refuse] names the requests that fail. *)
Definition testWorld (newNode : result bindings.Node)
    (setDial setBind stop : option error)
    (conn : result protocol.Protocol)
    (refuse : string -> option error) : @World testWire :=
  @Build_World testWire
    (fun _ _ _ _ => newNode)
    (fun _ _ _ => setDial)
    (fun _ _ _ => setBind)
    (fun _ _ => "@dqlite-1")
    (fun _ _ => None)
    (fun _ _ => stop)
    (fun _ _ _ _ _ => conn)
    (fun _ _ _ => conn)
    (fun _ _ _ (request response : frame) =>
       match refuse (operationOf request) with
       | Some e => (request, response, Some e)
       | None => (request, testAnswer request, None)
       end).

(** Everything works. *)
Definition calmWorld : @World testWire :=
  testWorld (Ok 1) None None None (Ok 5) (fun _ => None).

(** The engine's event loop does not stop. *)
Definition stuckWorld : @World testWire :=
  testWorld (Ok 1) None None (Some (errors.New "event loop is busy"))
    (Ok 5) (fun _ => None).

(** No peer can be reached. *)
Definition darkWorld : @World testWire :=
  testWorld (Ok 1) None None None
    (Err (errors.New "no available dqlite leader server found"))
    (fun _ => None).

(** The peer drops the connection on the request named [operation]. *)
Definition droppingWorld (operation : string) : @World testWire :=
  testWorld (Ok 1) None None None (Ok 5)
    (fun o => if String.eqb o operation
              then Some (errors.New "connection reset by peer")
              else None).

(** The engine refuses the dial function. *)
Definition pickyWorld : @World testWire :=
  testWorld (Ok 1) (Some (errors.New "dial function refused")) None None
    (Ok 5) (fun _ => None).

Definition testInfo : client.NodeInfo :=
  {| client.ID := 1%N; client.Address := "10.0.0.1:9001" |}.

Definition testNode : Node :=
  {| log := client.DefaultLogFunc;
     server := 1;
     acceptCh := make_chan error 1;
     id := 1%N;
     address := "10.0.0.1:9001";
     bindAddress := "@dqlite-1" |}.

(** The node [NewNode] builds from [testInfo] and a bind-address
    override. *)
Definition overriddenNode : Node :=
  {| log := client.DefaultLogFunc;
     server := 1;
     acceptCh := make_chan error 1;
     id := 1%N;
     address := "10.0.0.1:9001";
     bindAddress := "127.0.0.1:9001" |}.

Definition testCtx : context.Context := context.ctxRef 0.
Definition testStore : client.NodeStore := client.storeRef 0.

(** ** The options as data, and what a list of them should resolve to *)

(** The three options [server.go] offers. *)
Inductive OptionSpec : Type :=
| OptLog (log : client.LogFunc)
| OptDial (dial : client.DialFunc)
| OptBind (address : string).

Definition optionOf (x : OptionSpec) : NodeOption :=
  match x with
  | OptLog log => WithNodeLogFunc log
  | OptDial dial => WithNodeDialFunc dial
  | OptBind address => WithNodeBindAddress address
  end.

(** The logger of the last log option, [d] when there is none. *)
Fixpoint lastLog (xs : list OptionSpec) (d : client.LogFunc)
  : client.LogFunc :=
  match xs with
  | [] => d
  | OptLog log :: xs' => lastLog xs' log
  | _ :: xs' => lastLog xs' d
  end.

(** The dial function of the last dial option, [d] when there is none. *)
Fixpoint lastDial (xs : list OptionSpec) (d : client.DialFunc)
  : client.DialFunc :=
  match xs with
  | [] => d
  | OptDial dial :: xs' => lastDial xs' dial
  | _ :: xs' => lastDial xs' d
  end.

(** The address of the last bind-address option, [d] when there is
    none. *)
Fixpoint lastBind (xs : list OptionSpec) (d : string) : string :=
  match xs with
  | [] => d
  | OptBind address :: xs' => lastBind xs' address
  | _ :: xs' => lastBind xs' d
  end.

(** ** More ways to read a history *)

Section MoreHistories.
Context {wire : Wire}.

(** A call on the engine. *)
Definition is_engine (ev : Event) : bool :=
  match ev with
  | EvNewNode _ _ _ _ => true
  | EvSetDialFunc _ _ _ => true
  | EvSetBindAddress _ _ _ => true
  | EvGetBindAddress _ _ => true
  | EvStart _ _ => true
  | EvStop _ _ => true
  | EvServerClose _ => true
  | _ => false
  end.

(** A call on the existing engine [srv]. *)
Definition on_server (srv : bindings.Node) (ev : Event) : bool :=
  match ev with
  | EvSetDialFunc s _ _ => Nat.eqb srv s
  | EvSetBindAddress s _ _ => Nat.eqb srv s
  | EvGetBindAddress s _ => Nat.eqb srv s
  | EvStart s _ => Nat.eqb srv s
  | EvStop s _ => Nat.eqb srv s
  | EvServerClose s => Nat.eqb srv s
  | _ => false
  end.

(** One of the two settings [NewNode] makes, on engine [srv]. *)
Definition is_setting_on (srv : bindings.Node) (ev : Event) : bool :=
  match ev with
  | EvSetDialFunc s _ _ => Nat.eqb srv s
  | EvSetBindAddress s _ _ => Nat.eqb srv s
  | _ => false
  end.

(** The context a call was given. *)
Definition event_ctx (ev : Event) : option context.Context :=
  match ev with
  | EvConnect ctx _ _ _ _ => Some ctx
  | EvConnectorConnect _ ctx _ => Some ctx
  | EvCall _ ctx _ _ _ _ _ => Some ctx
  | _ => None
  end.

(** A stop signal. *)
Definition is_stop (ev : Event) : bool :=
  match ev with
  | EvStop _ _ => true
  | _ => false
  end.

(** A stop signal the engine acknowledged. *)
Definition is_acked_stop (ev : Event) : bool :=
  match ev with
  | EvStop _ None => true
  | _ => false
  end.

End MoreHistories.

(** The context an operation was called with. *)
Definition op_ctx (op : Operation) : context.Context :=
  match op with
  | OpCluster _ ctx => ctx
  | OpLeader _ ctx => ctx
  | OpJoin _ ctx _ _ => ctx
  | OpLeave ctx _ _ _ => ctx
  end.

(** The exchanges an operation makes when all goes well. *)
Definition exchanges (op : Operation) : nat :=
  match op with
  | OpJoin _ _ _ _ => 2
  | _ => 1
  end.

(** The methods that only talk to the engine. *)
Definition is_lifecycle (m : Method) : bool :=
  match m with
  | CallBindAddress => true
  | CallStart => true
  | CallClose => true
  | _ => false
  end.

(** ** Operations in a row *)

Section Sequences.
Context {wire : Wire}.
Variable w : World.

(** Run the operations one after the other and collect their errors. *)
Fixpoint performAll (ops : list Operation) : M (list (option error)) :=
  match ops with
  | [] => ret []
  | op :: ops' =>
    e <- perform w op ;;
    es <- performAll ops' ;;
    ret (e :: es)
  end.

(** The discipline of connections, checked along a history: [current] is
    the connection that is open.  With none open, nothing may be
    exchanged or closed; with one open, exchanges go over it, only it may
    be closed and no other may be opened; at the end none is open.  Calls
    on the engine are of no concern. *)
Fixpoint well_bracketed (current : option protocol.Protocol)
    (evs : list Event) : bool :=
  match evs with
  | [] =>
    match current with
    | None => true
    | Some _ => false
    end
  | ev :: evs' =>
    match current, ev with
    | None, EvCall _ _ _ _ _ _ _ => false
    | None, EvProtocolClose _ => false
    | None, _ => well_bracketed (opened ev) evs'
    | Some c, EvCall c' _ _ _ _ _ _ =>
      Nat.eqb c c' && well_bracketed current evs'
    | Some c, EvProtocolClose c' =>
      Nat.eqb c c' && well_bracketed None evs'
    | Some _, EvConnect _ _ _ _ _ => false
    | Some _, EvConnectorConnect _ _ _ => false
    | Some _, _ => well_bracketed current evs'
    end
  end.

End Sequences.

(** * Theorems *)

(** ** Every execution follows one of the listed call sequences *)

Ltac unfold_facade :=
  cbv [NewNode Node_BindAddress Node_Cluster Node_Leader Node_Start
       Node_Join Leave Node_Close
       bindings_NewNode server_SetDialFunc server_SetBindAddress
       server_GetBindAddress server_Start server_Stop server_Close
       protocol_Connect connector_Connect c_Call c_Close
       bind emit ret defer];
  cbn [fst snd].

Ltac split_paths :=
  repeat match goal with
         | |- context [match ?x with _ => _ end] =>
             lazymatch type of x with
             | (_ * History)%type => fail
             | (_ * list Event)%type => fail
             | _ => destruct x eqn:?; cbn [fst snd]
             end
         end.

Ltac close_history := rewrite <- ?app_assoc; cbn [app]; reflexivity.

Section RunLemmas.
Context {wire : Wire}.
Variable w : World.

Lemma NewNode_runs (info : client.NodeInfo) (dir : string)
    (options : list NodeOption) (h : History) :
  exists evs out,
    NewNode w info dir options h = (out, h ++ evs) /\
    NewNodeRun info dir (applyOptions options defaultNodeOptions) evs out.
Proof.
  unfold_facade.
  set (o := applyOptions options defaultNodeOptions).
  destruct (w_NewNode w h _ _ dir) as [srv | e].
  2:{ do 2 eexists; split; [reflexivity | constructor]. }
  destruct (DialFunc o) as [d |] eqn:Hd.
  - destruct (w_SetDialFunc w _ srv (Some d)) as [e |].
    { do 2 eexists; split; [close_history | econstructor; eassumption]. }
    match goal with
    | |- context [w_SetBindAddress w ?hh srv ?a] =>
        destruct (w_SetBindAddress w hh srv a) as [e |]
    end.
    + do 2 eexists; split; [close_history |].
      eapply NewNodeRun_bind with (pre := [_]); [rewrite Hd |]; reflexivity.
    + do 2 eexists; split; [close_history |].
      eapply NewNodeRun_ok with (pre := [_]); [rewrite Hd |]; reflexivity.
  - match goal with
    | |- context [w_SetBindAddress w ?hh srv ?a] =>
        destruct (w_SetBindAddress w hh srv a) as [e |]
    end.
    + do 2 eexists; split; [close_history |].
      eapply NewNodeRun_bind with (pre := []); [rewrite Hd |]; reflexivity.
    + do 2 eexists; split; [close_history |].
      eapply NewNodeRun_ok with (pre := []); [rewrite Hd |]; reflexivity.
Qed.

Lemma Cluster_runs (s : Node) (ctx : context.Context) (h : History) :
  exists evs out,
    Node_Cluster w s ctx h = (out, h ++ evs) /\ ClusterRun s ctx evs out.
Proof.
  unfold_facade. split_paths; subst;
    do 2 eexists; (split; [close_history | econstructor; eassumption]).
Qed.

Lemma Leader_runs (s : Node) (ctx : context.Context) (h : History) :
  exists evs out,
    Node_Leader w s ctx h = (out, h ++ evs) /\ LeaderRun s ctx evs out.
Proof.
  unfold_facade. split_paths; subst;
    do 2 eexists; (split; [close_history | econstructor; eassumption]).
Qed.

Lemma Join_runs (s : Node) (ctx : context.Context)
    (store : client.NodeStore) (dial : client.DialFunc) (h : History) :
  exists evs err,
    Node_Join w s ctx store dial h = (err, h ++ evs) /\
    JoinRun s ctx store dial evs err.
Proof.
  unfold_facade. fold (connectorConfig dial).
  split_paths; subst;
    do 2 eexists; (split; [close_history | econstructor]).
Qed.

Lemma Leave_runs (ctx : context.Context) (target : uint64)
    (store : client.NodeStore) (dial : client.DialFunc) (h : History) :
  exists evs err,
    Leave w ctx target store dial h = (err, h ++ evs) /\
    LeaveRun ctx target store dial evs err.
Proof.
  unfold_facade. fold (connectorConfig dial).
  split_paths; subst;
    do 2 eexists; (split; [close_history | econstructor]).
Qed.

Lemma Close_runs (s : Node) (h : History) :
  exists evs err,
    Node_Close w s h = (err, h ++ evs) /\ CloseRun s evs err.
Proof.
  unfold_facade. split_paths; subst;
    do 2 eexists; (split; [close_history | econstructor]).
Qed.

End RunLemmas.

(** ** Closing the node *)

Section CloseTheorems.
Context {wire : Wire}.
Variable w : World.

(** C1, as amended.  [Close] first sends the stop signal to the engine.
    When the engine acknowledges it, [Close] goes on to release the engine
    and returns nil.  When the stop fails, [Close] returns the stop error
    wrapped as "server failed to stop" and calls nothing else: the
    engine's resources are not released on that path. *)
Theorem Close_releases_only_after_stop (s : Node) (h : History) :
  exists evs,
    snd (Node_Close w s h) = h ++ evs /\
    match w_Stop w h (server s) with
    | None =>
        evs = [EvStop (server s) None; EvServerClose (server s)] /\
        fst (Node_Close w s h) = None
    | Some e =>
        evs = [EvStop (server s) (Some e)] /\
        existsb is_release evs = false /\
        fst (Node_Close w s h) =
          Some (errors.Wrapped e "server failed to stop")
    end.
Proof.
  unfold_facade.
  destruct (w_Stop w h (server s)) as [e |]; cbn [fst snd].
  - exists [EvStop (server s) (Some e)]. repeat split.
  - exists [EvStop (server s) None; EvServerClose (server s)].
    split; [close_history | split; reflexivity].
Qed.

End CloseTheorems.

(** C1, the claim as stated fails: in a world where the engine's event
    loop does not stop, [Close] reports the wrapped stop error and never
    calls the engine's [Close]. *)
Lemma Close_stop_failure_skips_release :
  Node_Close stuckWorld testNode [] =
    (Some (errors.Wrapped (errors.New "event loop is busy")
             "server failed to stop"),
     [EvStop 1 (Some (errors.New "event loop is busy"))])
  /\ existsb is_release (snd (Node_Close stuckWorld testNode [])) = false.
Proof. split; reflexivity. Qed.

(** ** Asking for the leader *)

Section LeaderTheorems.
Context {wire : Wire}.
Variable w : World.

(** C2, as amended.  A successful [Leader] always returns a non-nil
    [NodeInfo] pointer: it holds exactly the pair that [DecodeNode] read
    from the response of the one exchange, whatever that pair is, the
    encoding of "no leader" included.  A nil pointer comes only together
    with an error, and every error is a wrapper; nil with no error never
    happens, so success and failure are never confused. *)
Theorem Leader_success_is_never_nil (s : Node) (ctx : context.Context)
    (h : History) :
  match fst (Node_Leader w s ctx h) with
  | (Some info, None) =>
      exists c rq rs rq' rs',
        In (EvCall c ctx rq rs rq' rs' None) (snd (Node_Leader w s ctx h)) /\
        DecodeNode rs' = Ok (client.ID info, client.Address info)
  | (None, Some e) =>
      exists cause message, e = errors.Wrapped cause message
  | (None, None) => False
  | (Some _, Some _) => False
  end.
Proof.
  destruct (Leader_runs w s ctx h) as (evs & out & Heq & Hrun).
  rewrite Heq; cbn [fst snd].
  inversion Hrun; subst; cbn [fst snd]; eauto.
  do 5 eexists; split; [| eassumption].
  apply in_or_app; right. cbn; eauto.
Qed.

End LeaderTheorems.

(** C2, the claim as stated fails: the peer knows no leader and answers
    with the pair (0, empty address); [Leader] succeeds with a non-nil
    pointer to that pair, not with nil. *)
Lemma Leader_without_leader_is_not_nil :
  fst (Node_Leader calmWorld testNode testCtx []) =
    (Some {| client.ID := 0%N; client.Address := "" |}, None)
  /\ (match fst (fst (Node_Leader calmWorld testNode testCtx [])) with
      | Some _ => true
      | None => false
      end) = true.
Proof. split; reflexivity. Qed.

(** ** Joining a cluster *)

Section JoinTheorems.
Context {wire : Wire}.
Variable w : World.

(** C3, as amended.  When [Join] fails, the error it returns is exactly
    the error reported by the step that failed - getting the connection,
    the Join request or the Promote request - passed on unchanged.  Every
    step before it had succeeded and no request follows it.  [Join] adds
    nothing that names the step. *)
Theorem Join_returns_the_failing_step_error (s : Node)
    (ctx : context.Context) (store : client.NodeStore)
    (dial : client.DialFunc) (h : History) (e : error) :
  fst (Node_Join w s ctx store dial h) = Some e ->
  exists pre ev post,
    snd (Node_Join w s ctx store dial h) = h ++ pre ++ ev :: post /\
    reported ev = Some e /\
    (forall x, In x pre -> reported x = None) /\
    (forall x, In x post -> is_call x = false /\ is_connect x = false).
Proof.
  destruct (Join_runs w s ctx store dial h) as (evs & err & Heq & Hrun).
  rewrite Heq; cbn [fst snd]. intros ->.
  inversion Hrun; subst.
  - exists [], (EvConnectorConnect
                 (protocol.NewConnector 0%N store (connectorConfig dial)
                    (log s)) ctx (Err e)), [].
    repeat split; cbn; intros; contradiction.
  - exists [EvConnectorConnect
              (protocol.NewConnector 0%N store (connectorConfig dial)
                 (log s)) ctx (Ok c)],
      (EvCall c ctx
         (EncodeJoin (Message_Init Message_zero 4096) (id s) (address s))
         (Message_Init Message_zero 4096) rq rs (Some e)),
      [EvProtocolClose c].
    repeat split; cbn in *; intuition (subst; reflexivity).
  - exists [EvConnectorConnect
              (protocol.NewConnector 0%N store (connectorConfig dial)
                 (log s)) ctx (Ok c);
            EvCall c ctx
              (EncodeJoin (Message_Init Message_zero 4096) (id s)
                 (address s))
              (Message_Init Message_zero 4096) rq rs None],
      (EvCall c ctx (EncodePromote rq (id s)) rs rq' rs' (Some e)),
      [EvProtocolClose c].
    repeat split; cbn in *; intuition (subst; reflexivity).
Qed.

(** C5.  [Join] asks the connector for a connection once, first of all.
    If that fails nothing is requested.  Otherwise every request goes over
    the connection it got: first the Join request; the Promote request is
    issued only when the Join exchange came back without an error, and is
    written into the request buffer that exchange left; a failed exchange
    is the last one. *)
Theorem Join_promotes_after_join_ack (s : Node) (ctx : context.Context)
    (store : client.NodeStore) (dial : client.DialFunc) (h : History) :
  exists connector r rest,
    snd (Node_Join w s ctx store dial h) =
      h ++ EvConnectorConnect connector ctx r :: rest /\
    (forall x, In x rest -> is_connect x = false) /\
    match r with
    | Err e =>
        filter is_call rest = [] /\
        fst (Node_Join w s ctx store dial h) = Some e
    | Ok c =>
        (exists rq rs e,
           filter is_call rest =
             [EvCall c ctx
                (EncodeJoin (Message_Init Message_zero 4096) (id s)
                   (address s))
                (Message_Init Message_zero 4096) rq rs (Some e)] /\
           fst (Node_Join w s ctx store dial h) = Some e)
        \/
        (exists rq rs rq' rs' r',
           filter is_call rest =
             [EvCall c ctx
                (EncodeJoin (Message_Init Message_zero 4096) (id s)
                   (address s))
                (Message_Init Message_zero 4096) rq rs None;
              EvCall c ctx (EncodePromote rq (id s)) rs rq' rs' r'] /\
           fst (Node_Join w s ctx store dial h) = r')
    end.
Proof.
  destruct (Join_runs w s ctx store dial h) as (evs & err & Heq & Hrun).
  rewrite Heq; cbn [fst snd].
  inversion Hrun; subst; do 3 eexists;
    (split; [reflexivity |]);
    (split; [cbn; intros x Hx; intuition (subst; reflexivity) |]);
    cbn.
  - split; reflexivity.
  - left. do 3 eexists. split; reflexivity.
  - right. do 5 eexists. split; reflexivity.
Qed.

End JoinTheorems.

(** C3, the witness: the peer drops the connection on the Promote
    request. *)
Lemma Join_returns_the_failing_step_error_witness :
  exists pre ev post,
    snd (Node_Join (droppingWorld "Promote") testNode testCtx testStore
           None []) = [] ++ pre ++ ev :: post /\
    reported ev = Some (errors.New "connection reset by peer") /\
    (forall x, In x pre -> reported x = None) /\
    (forall x, In x post -> is_call x = false /\ is_connect x = false).
Proof.
  apply (Join_returns_the_failing_step_error (droppingWorld "Promote")
           testNode testCtx testStore None []
           (errors.New "connection reset by peer")).
  reflexivity.
Defined.

(** C3, the claim as stated fails: a peer that drops the connection on
    the Join request and a peer that drops it on the Promote request make
    [Join] return the same error value, although a different step
    failed. *)
Lemma Join_error_does_not_name_the_step :
  Node_Join (droppingWorld "Join") testNode testCtx testStore None [] =
    (Some (errors.New "connection reset by peer"),
     [EvConnectorConnect
        (protocol.NewConnector 0%N testStore (connectorConfig None)
           client.DefaultLogFunc) testCtx (Ok 5);
      @EvCall testWire 5 testCtx (Request "Join" 1%N "10.0.0.1:9001") (Blank 4096)
        (Request "Join" 1%N "10.0.0.1:9001") (Blank 4096)
        (Some (errors.New "connection reset by peer"));
      EvProtocolClose 5])
  /\
  Node_Join (droppingWorld "Promote") testNode testCtx testStore None [] =
    (Some (errors.New "connection reset by peer"),
     [EvConnectorConnect
        (protocol.NewConnector 0%N testStore (connectorConfig None)
           client.DefaultLogFunc) testCtx (Ok 5);
      @EvCall testWire 5 testCtx (Request "Join" 1%N "10.0.0.1:9001") (Blank 4096)
        (Request "Join" 1%N "10.0.0.1:9001") Ack None;
      @EvCall testWire 5 testCtx (Request "Promote" 1%N "") Ack
        (Request "Promote" 1%N "") Ack
        (Some (errors.New "connection reset by peer"));
      EvProtocolClose 5]).
Proof. split; reflexivity. Qed.

(** ** The four network operations together *)

Section NetworkTheorems.
Context {wire : Wire}.
Variable w : World.

Lemma perform_Cluster (s : Node) (ctx : context.Context) (h : History) :
  perform w (OpCluster s ctx) h =
    (snd (fst (Node_Cluster w s ctx h)), snd (Node_Cluster w s ctx h)).
Proof.
  unfold perform, bind, ret. destruct (Node_Cluster w s ctx h); reflexivity.
Qed.

Lemma perform_Leader (s : Node) (ctx : context.Context) (h : History) :
  perform w (OpLeader s ctx) h =
    (snd (fst (Node_Leader w s ctx h)), snd (Node_Leader w s ctx h)).
Proof.
  unfold perform, bind, ret. destruct (Node_Leader w s ctx h); reflexivity.
Qed.

(** The events an operation adds, whatever the operation. *)
Lemma perform_extends (op : Operation) (h : History) :
  exists evs, snd (perform w op h) = h ++ evs.
Proof.
  destruct op as [s ctx | s ctx | s ctx store dial | ctx target store dial].
  - rewrite perform_Cluster.
    destruct (Cluster_runs w s ctx h) as (evs & out & Heq & _).
    exists evs. rewrite Heq; reflexivity.
  - rewrite perform_Leader.
    destruct (Leader_runs w s ctx h) as (evs & out & Heq & _).
    exists evs. rewrite Heq; reflexivity.
  - destruct (Join_runs w s ctx store dial h) as (evs & out & Heq & _).
    exists evs. cbn [perform]. rewrite Heq; reflexivity.
  - destruct (Leave_runs w ctx target store dial h) as (evs & out & Heq & _).
    exists evs. cbn [perform]. rewrite Heq; reflexivity.
Qed.

(** C4, as amended.  [Cluster] and [Leader] wrap every error they return
    with the description of the phase that failed: "failed to connect to
    dqlite task" around the connect error, "failed to send ... request"
    around the error of the exchange, "failed to parse Node response"
    around the decode error.  [Join] and [Leave] wrap nothing: the error
    they return is the very error a call reported.  None of the four
    swallows an error: when the operation returns nil, no call reported an
    error and the response, where one is decoded, decoded well. *)
Theorem errors_reach_the_caller (op : Operation) (h : History) :
  exists evs,
    snd (perform w op h) = h ++ evs /\
    match fst (perform w op h) with
    | Some e =>
        if describes op then
          exists cause message,
            e = errors.Wrapped cause message /\
            ((message = "failed to connect to dqlite task" /\
              exists ev, In ev evs /\ is_connect ev = true /\
                         reported ev = Some cause)
             \/
             (message = sendDescription op /\
              exists ev, In ev evs /\ is_call ev = true /\
                         reported ev = Some cause)
             \/
             (message = "failed to parse Node response" /\
              exists c ctx rq rs rq' rs',
                In (EvCall c ctx rq rs rq' rs' None) evs /\
                decodeError op rs' = Some cause))
        else
          exists ev, In ev evs /\ reported ev = Some e
    | None =>
        (forall ev, In ev evs -> reported ev = None) /\
        (forall c ctx rq rs rq' rs' r,
           In (EvCall c ctx rq rs rq' rs' r) evs ->
           decodeError op rs' = None)
    end.
Proof.
  destruct op as [s ctx | s ctx | s ctx store dial | ctx target store dial].
  - rewrite perform_Cluster.
    destruct (Cluster_runs w s ctx h) as (evs & out & Heq & Hrun).
    exists evs. rewrite Heq; cbn [fst snd]. split; [reflexivity |].
    inversion Hrun; subst; cbn [fst snd describes sendDescription].
    + do 2 eexists; split; [reflexivity |]. left. split; [reflexivity |].
      eexists; split; [left; reflexivity | split; reflexivity].
    + do 2 eexists; split; [reflexivity |]. right; left.
      split; [reflexivity |].
      eexists; split; [right; left; reflexivity | split; reflexivity].
    + do 2 eexists; split; [reflexivity |]. right; right.
      split; [reflexivity |].
      do 6 eexists; split; [right; left; reflexivity |].
      cbn. rewrite H. reflexivity.
    + split.
      * intros ev Hev; cbn in Hev; intuition (subst; reflexivity).
      * intros c0 ctx0 rq0 rs0 rq1 rs1 r Hev; cbn in Hev.
        destruct Hev as [Hev | [Hev | [Hev | []]]]; try discriminate.
        inversion Hev; subst. cbn. rewrite H. reflexivity.
  - rewrite perform_Leader.
    destruct (Leader_runs w s ctx h) as (evs & out & Heq & Hrun).
    exists evs. rewrite Heq; cbn [fst snd]. split; [reflexivity |].
    inversion Hrun; subst; cbn [fst snd describes sendDescription].
    + do 2 eexists; split; [reflexivity |]. left. split; [reflexivity |].
      eexists; split; [left; reflexivity | split; reflexivity].
    + do 2 eexists; split; [reflexivity |]. right; left.
      split; [reflexivity |].
      eexists; split; [right; left; reflexivity | split; reflexivity].
    + do 2 eexists; split; [reflexivity |]. right; right.
      split; [reflexivity |].
      do 6 eexists; split; [right; left; reflexivity |].
      cbn. rewrite H. reflexivity.
    + split.
      * intros ev Hev; cbn in Hev; intuition (subst; reflexivity).
      * intros c0 ctx0 rq0 rs0 rq1 rs1 r Hev; cbn in Hev.
        destruct Hev as [Hev | [Hev | [Hev | []]]]; try discriminate.
        inversion Hev; subst. cbn. rewrite H. reflexivity.
  - cbn [perform].
    destruct (Join_runs w s ctx store dial h) as (evs & out & Heq & Hrun).
    exists evs. rewrite Heq; cbn [fst snd]. split; [reflexivity |].
    inversion Hrun; subst; cbn [describes].
    + eexists; split; [left; reflexivity | reflexivity].
    + eexists; split; [right; left; reflexivity | reflexivity].
    + destruct out as [e |].
      * eexists; split; [right; right; left; reflexivity | reflexivity].
      * split; [| reflexivity].
        intros ev Hev; cbn in Hev; intuition (subst; reflexivity).
  - cbn [perform].
    destruct (Leave_runs w ctx target store dial h)
      as (evs & out & Heq & Hrun).
    exists evs. rewrite Heq; cbn [fst snd]. split; [reflexivity |].
    inversion Hrun; subst; cbn [describes].
    + eexists; split; [left; reflexivity | reflexivity].
    + destruct out as [e |].
      * eexists; split; [right; left; reflexivity | reflexivity].
      * split; [| reflexivity].
        intros ev Hev; cbn in Hev; intuition (subst; reflexivity).
Qed.

End NetworkTheorems.

(** C4, the claim as stated fails: when no peer can be reached, [Join]
    and [Leave] hand the connector's error to the caller as it is, with no
    description around it. *)
Lemma Join_and_Leave_errors_are_bare :
  fst (Node_Join darkWorld testNode testCtx testStore None []) =
    Some (errors.New "no available dqlite leader server found")
  /\ fst (Leave darkWorld testCtx 2%N testStore None []) =
    Some (errors.New "no available dqlite leader server found")
  /\ errors.annotation
       (errors.New "no available dqlite leader server found") = None.
Proof. repeat split. Qed.

(** ** How the operations connect *)

Section ConnectTheorems.
Context {wire : Wire}.
Variable w : World.

(** C6.  [Cluster] begins by connecting, with the Unix dialer, to the
    node's own bind address under the legacy protocol version; [Leader]
    does the same under version one.  Neither goes through a connector and
    its node store, neither connects a second time, and the two versions
    differ. *)
Theorem Cluster_and_Leader_connect_locally (s : Node)
    (ctx : context.Context) (h : History) :
  (exists r rest,
     snd (Node_Cluster w s ctx h) =
       h ++ EvConnect ctx protocol.UnixDial (bindAddress s)
              protocol.VersionLegacy r :: rest /\
     forall x, In x rest -> is_connect x = false)
  /\
  (exists r rest,
     snd (Node_Leader w s ctx h) =
       h ++ EvConnect ctx protocol.UnixDial (bindAddress s)
              protocol.VersionOne r :: rest /\
     forall x, In x rest -> is_connect x = false)
  /\ protocol.VersionOne <> protocol.VersionLegacy.
Proof.
  split; [| split; [| discriminate]].
  - destruct (Cluster_runs w s ctx h) as (evs & out & Heq & Hrun).
    rewrite Heq; cbn [snd].
    inversion Hrun; subst; do 2 eexists; (split; [reflexivity |]);
      cbn; intros x Hx; intuition (subst; reflexivity).
  - destruct (Leader_runs w s ctx h) as (evs & out & Heq & Hrun).
    rewrite Heq; cbn [snd].
    inversion Hrun; subst; do 2 eexists; (split; [reflexivity |]);
      cbn; intros x Hx; intuition (subst; reflexivity).
Qed.

(** C7.  [Join] and [Leave] begin by asking a connector for a connection,
    and build that connector from the same pieces: identifier 0, the store
    they were given and one and the same configuration, whose dial
    function is the TCP dialer when the caller passed nil and the caller's
    otherwise, whose attempt timeout is one second (10^9 ns) and whose
    only retry strategy is the binary exponential backoff with factor one
    millisecond (10^6 ns).  Only the logger is each one's own: the node's
    for [Join], the default one for [Leave]. *)
Theorem Join_and_Leave_build_the_same_connector (s : Node)
    (ctx : context.Context) (target : uint64) (store : client.NodeStore)
    (dial : client.DialFunc) (hJ hL : History) :
  exists config rJ restJ rL restL,
    snd (Node_Join w s ctx store dial hJ) =
      hJ ++ EvConnectorConnect
              (protocol.NewConnector 0%N store config (log s)) ctx rJ
            :: restJ /\
    snd (Leave w ctx target store dial hL) =
      hL ++ EvConnectorConnect
              (protocol.NewConnector 0%N store config
                 client.DefaultLogFunc) ctx rL
            :: restL /\
    protocol.Dial config =
      match dial with
      | None => Some client.tcpDialer
      | Some d => Some d
      end /\
    protocol.AttemptTimeout config = 1000000000%Z /\
    protocol.RetryStrategies config =
      [strategy.Backoff (backoff.BinaryExponential 1000000%Z)].
Proof.
  destruct (Join_runs w s ctx store dial hJ) as (evsJ & errJ & HJ & RJ).
  destruct (Leave_runs w ctx target store dial hL)
    as (evsL & errL & HL & RL).
  rewrite HJ, HL; cbn [snd].
  exists (connectorConfig dial).
  inversion RJ; subst; inversion RL; subst;
    do 4 eexists;
    (split; [reflexivity |]); (split; [reflexivity |]);
    (split; [destruct dial; reflexivity | split; reflexivity]).
Qed.

(** C9.  Whenever one of [Cluster], [Leader], [Join] and [Leave] gets a
    connection, getting it is the first thing the operation does and
    closing that same connection is the last thing it does before it
    returns, whether the operation succeeds or fails and whichever call
    failed (a cancelled context shows as a failed call).  In between the
    connection is not closed and no other connection is opened. *)
Theorem connection_is_closed_on_every_path (op : Operation) (h : History)
    (evs : list Event) (ev : Event) (c : protocol.Protocol) :
  snd (perform w op h) = h ++ evs ->
  In ev evs ->
  opened ev = Some c ->
  exists mid,
    evs = ev :: mid ++ [EvProtocolClose c] /\
    forall x, In x mid -> closes c x = false /\ opened x = None.
Proof.
  intros Hevs Hin Hopen.
  destruct op as [s ctx | s ctx | s ctx store dial | ctx target store dial].
  - rewrite perform_Cluster in Hevs; cbn [snd] in Hevs.
    destruct (Cluster_runs w s ctx h) as (evs' & out & Heq & Hrun).
    rewrite Heq in Hevs; cbn [snd] in Hevs.
    apply app_inv_head in Hevs; subst evs'.
    inversion Hrun; subst; cbn in Hin;
      repeat (destruct Hin as [Hin | Hin]; [subst ev | ]);
      try contradiction; try discriminate;
      inversion Hopen; subst;
      (eexists [_]; split; [reflexivity |]);
      intros x [<- | []]; split; reflexivity.
  - rewrite perform_Leader in Hevs; cbn [snd] in Hevs.
    destruct (Leader_runs w s ctx h) as (evs' & out & Heq & Hrun).
    rewrite Heq in Hevs; cbn [snd] in Hevs.
    apply app_inv_head in Hevs; subst evs'.
    inversion Hrun; subst; cbn in Hin;
      repeat (destruct Hin as [Hin | Hin]; [subst ev | ]);
      try contradiction; try discriminate;
      inversion Hopen; subst;
      (eexists [_]; split; [reflexivity |]);
      intros x [<- | []]; split; reflexivity.
  - cbn [perform] in Hevs.
    destruct (Join_runs w s ctx store dial h) as (evs' & out & Heq & Hrun).
    rewrite Heq in Hevs; cbn [snd] in Hevs.
    apply app_inv_head in Hevs; subst evs'.
    inversion Hrun; subst; cbn in Hin;
      repeat (destruct Hin as [Hin | Hin]; [subst ev | ]);
      try contradiction; try discriminate;
      inversion Hopen; subst.
    + eexists [_]; split; [reflexivity |].
      intros x [<- | []]; split; reflexivity.
    + eexists [_; _]; split; [reflexivity |].
      intros x [<- | [<- | []]]; split; reflexivity.
  - cbn [perform] in Hevs.
    destruct (Leave_runs w ctx target store dial h)
      as (evs' & out & Heq & Hrun).
    rewrite Heq in Hevs; cbn [snd] in Hevs.
    apply app_inv_head in Hevs; subst evs'.
    inversion Hrun; subst; cbn in Hin;
      repeat (destruct Hin as [Hin | Hin]; [subst ev | ]);
      try contradiction; try discriminate;
      inversion Hopen; subst;
      (eexists [_]; split; [reflexivity |]);
      intros x [<- | []]; split; reflexivity.
Qed.

End ConnectTheorems.

(** C9, the witness: a [Join] that goes through in a world where
    everything works; connection 5 is opened first and closed last. *)
Lemma connection_is_closed_on_every_path_witness :
  exists mid,
    [EvConnectorConnect
       (protocol.NewConnector 0%N testStore (connectorConfig None)
          client.DefaultLogFunc) testCtx (Ok 5);
     @EvCall testWire 5 testCtx (Request "Join" 1%N "10.0.0.1:9001")
       (Blank 4096) (Request "Join" 1%N "10.0.0.1:9001") Ack None;
     @EvCall testWire 5 testCtx (Request "Promote" 1%N "") Ack
       (Request "Promote" 1%N "") Ack None;
     EvProtocolClose 5] =
    EvConnectorConnect
      (protocol.NewConnector 0%N testStore (connectorConfig None)
         client.DefaultLogFunc) testCtx (Ok 5)
    :: mid ++ [EvProtocolClose 5] /\
    forall x, In x mid -> closes 5 x = false /\ opened x = None.
Proof.
  apply (connection_is_closed_on_every_path calmWorld
           (OpJoin testNode testCtx testStore None) []).
  - reflexivity.
  - left; reflexivity.
  - reflexivity.
Defined.

(** ** Constructing a node *)

(** The options, one at a time. *)
Lemma applyOptions_app (xs ys : list NodeOption) (o : serverOptions) :
  applyOptions (xs ++ ys) o = applyOptions ys (applyOptions xs o).
Proof. unfold applyOptions. apply fold_left_app. Qed.

(** The last bind-address option wins. *)
Lemma applyOptions_bind_last (xs : list NodeOption) (a : string)
    (o : serverOptions) :
  BindAddress (applyOptions (xs ++ [WithNodeBindAddress a]) o) = a.
Proof. rewrite applyOptions_app. reflexivity. Qed.

(** The other two options leave the bind address alone. *)
Lemma applyOptions_bind_untouched (xs : list NodeOption)
    (o : serverOptions) :
  Forall (fun x => (exists l, x = WithNodeLogFunc l) \/
                   (exists d, x = WithNodeDialFunc d)) xs ->
  BindAddress (applyOptions xs o) = BindAddress o.
Proof.
  intros Hxs. revert o.
  induction Hxs as [| x xs Hx _ IH]; intros o; [reflexivity |].
  cbn. change (fold_left _ xs (x o)) with (applyOptions xs (x o)).
  rewrite IH. destruct Hx as [[l ->] | [d ->]]; reflexivity.
Qed.

(** [Sprintf_d] writes the decimal numeral of its argument: reading the
    digits back gives the number. *)
Lemma Sprintf_d_reads_back (n : N) :
  option_map N.of_uint (NilZero.uint_of_string (Sprintf_d n)) = Some n.
Proof.
  unfold Sprintf_d.
  rewrite NilZero.usu.
  - cbn [option_map]. now rewrite DecimalN.Unsigned.of_to.
  - destruct n; [discriminate |].
    cbn. apply DecimalPos.Unsigned.to_uint_nonnil.
Qed.

Section NewNodeTheorems.
Context {wire : Wire}.
Variable w : World.

(** A method call leaves its receiver as it found it. *)
Lemma invoke_keeps_receiver (w' : World) (s : Node) (m : Method)
    (h : History) :
  fst (invoke w' s m h) = s.
Proof.
  destruct m; unfold invoke, bind, ret;
    match goal with
    | |- context [let (_, _) := ?x in _] => destruct x
    end; reflexivity.
Qed.

Lemma invokeAll_keeps_receiver (w' : World) (ms : list Method) (s : Node)
    (h : History) :
  fst (invokeAll w' s ms h) = s.
Proof.
  revert s h. induction ms as [| m ms IH]; intros s h; [reflexivity |].
  cbn [invokeAll]. unfold bind.
  pose proof (invoke_keeps_receiver w' s m h) as Hm.
  destruct (invoke w' s m h) as [s' h']. cbn [fst] in Hm. subst s'.
  apply IH.
Qed.

(** C8.  When [NewNode] succeeds, the node's [bindAddress] is the
    bind-address override of the options when there is one (a non-empty
    string) and otherwise the text "@dqlite-" followed by the decimal
    numeral of the node ID; and after any sequence of method calls on the
    node, in any world and from any history, [bindAddress] is still that
    string. *)
Theorem bindAddress_is_fixed_at_construction (info : client.NodeInfo)
    (dir : string) (options : list NodeOption) (h h' : History) (s : Node)
    (w' : World) (ms : list Method) (h1 : History) :
  NewNode w info dir options h = ((Some s, None), h') ->
  bindAddress s =
    (if String.eqb (BindAddress (applyOptions options defaultNodeOptions)) ""
     then ("@dqlite-" ++ Sprintf_d (client.ID info))%string
     else BindAddress (applyOptions options defaultNodeOptions))
  /\ bindAddress (fst (invokeAll w' s ms h1)) = bindAddress s.
Proof.
  intros Hnew. split.
  - destruct (NewNode_runs w info dir options h)
      as (evs & out & Heq & Hrun).
    rewrite Heq in Hnew. inversion Hnew; subst out h'.
    inversion Hrun; subst. reflexivity.
  - rewrite invokeAll_keeps_receiver. reflexivity.
Qed.

(** C10.  [NewNode] stops at the first error: if constructing the engine,
    [SetDialFunc] or [SetBindAddress] reports an error, that call is the
    last one [NewNode] makes and [NewNode] returns a nil node together with
    that very error.  [SetDialFunc] is called only with the non-nil dial
    function of the options; with no dial function in the options it is
    not called at all. *)
Theorem NewNode_stops_at_the_first_error (info : client.NodeInfo)
    (dir : string) (options : list NodeOption) (h : History) :
  exists evs,
    snd (NewNode w info dir options h) = h ++ evs /\
    (forall ev e,
       In ev evs -> reported ev = Some e ->
       fst (NewNode w info dir options h) = (None, Some e) /\
       exists pre, evs = pre ++ [ev]) /\
    (forall ev,
       In ev evs -> is_SetDialFunc ev = true ->
       exists srv d r,
         ev = EvSetDialFunc srv (Some d) r /\
         DialFunc (applyOptions options defaultNodeOptions) = Some d) /\
    (DialFunc (applyOptions options defaultNodeOptions) = None ->
     existsb is_SetDialFunc evs = false).
Proof.
  destruct (NewNode_runs w info dir options h) as (evs & out & Heq & Hrun).
  exists evs. rewrite Heq; cbn [fst snd]. split; [reflexivity |].
  set (o := applyOptions options defaultNodeOptions) in *.
  inversion Hrun; subst.
  - repeat split.
    + cbn in H; destruct H as [<- | []]. cbn in H0. congruence.
    + exists []. cbn in H; destruct H as [<- | []]. reflexivity.
    + intros ev [<- | []]; discriminate.
  - repeat split.
    + cbn in H0; destruct H0 as [<- | [<- | []]]; cbn in H1; congruence.
    + cbn in H0; destruct H0 as [<- | [<- | []]]; cbn in H1;
        [discriminate |]. eexists [_]; reflexivity.
    + intros ev [<- | [<- | []]]; [discriminate |]. eauto.
    + congruence.
  - destruct (DialFunc o) as [d |] eqn:Hd; repeat split.
    + cbn in H; destruct H as [<- | [<- | [<- | []]]]; cbn in H0;
        congruence.
    + cbn in H; destruct H as [<- | [<- | [<- | []]]]; cbn in H0;
        try discriminate. eexists [_; _]; reflexivity.
    + intros ev [<- | [<- | [<- | []]]]; try discriminate. eauto.
    + discriminate.
    + cbn in H; destruct H as [<- | [<- | []]]; cbn in H0; congruence.
    + cbn in H; destruct H as [<- | [<- | []]]; cbn in H0;
        try discriminate. eexists [_]; reflexivity.
    + intros ev [<- | [<- | []]]; discriminate.
  - destruct (DialFunc o) as [d |] eqn:Hd; repeat split.
    + cbn in H; destruct H as [<- | [<- | [<- | []]]]; cbn in H0;
        discriminate.
    + cbn in H; destruct H as [<- | [<- | [<- | []]]]; cbn in H0;
        discriminate.
    + intros ev [<- | [<- | [<- | []]]]; try discriminate. eauto.
    + discriminate.
    + cbn in H; destruct H as [<- | [<- | []]]; cbn in H0; discriminate.
    + cbn in H; destruct H as [<- | [<- | []]]; cbn in H0; discriminate.
    + intros ev [<- | [<- | []]]; discriminate.
Qed.

End NewNodeTheorems.

(** C8, the witness: a node built with a bind-address override in a world
    where everything works, then started, queried, joined and closed. *)
Lemma bindAddress_is_fixed_at_construction_witness :
  bindAddress overriddenNode = "127.0.0.1:9001"
  /\ bindAddress
       (fst (invokeAll calmWorld overriddenNode
               [CallStart; CallBindAddress; CallCluster testCtx;
                CallLeader testCtx; CallJoin testCtx testStore None;
                CallClose] [])) = bindAddress overriddenNode.
Proof.
  exact (bindAddress_is_fixed_at_construction calmWorld testInfo
           "/var/lib/dqlite" [WithNodeBindAddress "127.0.0.1:9001"] []
           [EvNewNode 1%N "10.0.0.1:9001" "/var/lib/dqlite" (Ok 1);
            EvSetBindAddress 1 "127.0.0.1:9001" None]
           overriddenNode calmWorld
           [CallStart; CallBindAddress; CallCluster testCtx;
            CallLeader testCtx; CallJoin testCtx testStore None;
            CallClose] [] eq_refl).
Defined.

(** ** The model at work *)

Example Sprintf_d_zero : Sprintf_d 0 = "0".
Proof. reflexivity. Qed.

Example Sprintf_d_max : Sprintf_d (2 ^ 64 - 1) = "18446744073709551615".
Proof. reflexivity. Qed.

(** With no options the bind address comes from the ID and
    [SetDialFunc] is not called. *)
Example NewNode_default :
  NewNode calmWorld testInfo "/var/lib/dqlite" [] [] =
    ((Some testNode, None),
     [EvNewNode 1%N "10.0.0.1:9001" "/var/lib/dqlite" (Ok 1);
      EvSetBindAddress 1 "@dqlite-1" None]).
Proof. reflexivity. Qed.

(** An empty override counts as none. *)
Example NewNode_empty_override :
  fst (NewNode calmWorld testInfo "/var/lib/dqlite"
         [WithNodeBindAddress "127.0.0.1:9001"; WithNodeBindAddress ""] [])
  = (Some testNode, None).
Proof. reflexivity. Qed.

(** The engine refuses the dial function: no node, that error, and
    [SetBindAddress] is never reached. *)
Example NewNode_dial_refused :
  NewNode pickyWorld testInfo "/var/lib/dqlite"
    [WithNodeDialFunc (Some (client.userDialer 0))] [] =
    ((None, Some (errors.New "dial function refused")),
     [EvNewNode 1%N "10.0.0.1:9001" "/var/lib/dqlite" (Ok 1);
      EvSetDialFunc 1 (Some (client.userDialer 0))
        (Some (errors.New "dial function refused"))]).
Proof. reflexivity. Qed.

Example Cluster_calm :
  Node_Cluster calmWorld testNode testCtx [] =
    (([testInfo], None),
     [EvConnect testCtx protocol.UnixDial "@dqlite-1"
        protocol.VersionLegacy (Ok 5);
      @EvCall testWire 5 testCtx (Request "Cluster" 0%N "") (Blank 512)
        (Request "Cluster" 0%N "") (NodesFrame [testInfo]) None;
      EvProtocolClose 5]).
Proof. reflexivity. Qed.

(** The peer drops the connection on the Leader request: the wrapped
    error of the exchange, and the connection is closed all the same. *)
Example Leader_dropped :
  Node_Leader (droppingWorld "Leader") testNode testCtx [] =
    ((None,
      Some (errors.Wrapped (errors.New "connection reset by peer")
              "failed to send Leader request")),
     [EvConnect testCtx protocol.UnixDial "@dqlite-1"
        protocol.VersionOne (Ok 5);
      @EvCall testWire 5 testCtx (Request "Leader" 0%N "") (Blank 512)
        (Request "Leader" 0%N "") (Blank 512)
        (Some (errors.New "connection reset by peer"));
      EvProtocolClose 5]).
Proof. reflexivity. Qed.

Example Close_calm :
  Node_Close calmWorld testNode [] =
    (None, [EvStop 1 None; EvServerClose 1]).
Proof. reflexivity. Qed.

Example Leave_calm :
  Leave calmWorld testCtx 2%N testStore None [] =
    (None,
     [EvConnectorConnect
        (protocol.NewConnector 0%N testStore (connectorConfig None)
           client.DefaultLogFunc) testCtx (Ok 5);
      @EvCall testWire 5 testCtx (Request "Remove" 2%N "") (Blank 4096)
        (Request "Remove" 2%N "") Ack None;
      EvProtocolClose 5]).
Proof. reflexivity. Qed.

(** * Further properties of [server.go] *)

(** ** Options *)

(** X1.  However many options are passed and in whatever order, each field
    of the resolved options holds the value of the last option of its
    kind, and keeps its previous value when there is no option of that
    kind: options of different kinds do not interfere. *)
Theorem options_resolve_to_the_last_of_each_kind (xs : list OptionSpec)
    (o : serverOptions) :
  applyOptions (map optionOf xs) o =
    {| Log := lastLog xs (Log o);
       DialFunc := lastDial xs (DialFunc o);
       BindAddress := lastBind xs (BindAddress o) |}.
Proof.
  revert o. induction xs as [| x xs IH]; intros o.
  - destruct o; reflexivity.
  - cbn [map applyOptions fold_left].
    change (fold_left _ (map optionOf xs) (optionOf x o))
      with (applyOptions (map optionOf xs) (optionOf x o)).
    rewrite IH. destruct x; reflexivity.
Qed.

(** ** Construction *)

Section ConstructionFacts.
Context {wire : Wire}.
Variable w : World.


(** X3.  The address [Cluster] and [Leader] connect to is the address the
    engine was told to bind when the node was constructed: the last call
    of a successful [NewNode] is [SetBindAddress] on the node's engine,
    acknowledged, with the very string both queries later dial. *)
Theorem local_queries_dial_the_bound_address (info : client.NodeInfo)
    (dir : string) (options : list NodeOption) (h h' : History)
    (s : Node) (w' : World) (ctx : context.Context) (h1 : History) :
  NewNode w info dir options h = ((Some s, None), h') ->
  exists pre a rC restC rL restL,
    h' = h ++ pre ++ [EvSetBindAddress (server s) a None] /\
    snd (Node_Cluster w' s ctx h1) =
      h1 ++ EvConnect ctx protocol.UnixDial a protocol.VersionLegacy rC
            :: restC /\
    snd (Node_Leader w' s ctx h1) =
      h1 ++ EvConnect ctx protocol.UnixDial a protocol.VersionOne rL
            :: restL.
Proof.
  intros Hnew.
  destruct (NewNode_runs w info dir options h) as (evs & out & Heq & Hrun).
  rewrite Heq in Hnew. inversion Hnew; subst out h'.
  destruct (Cluster_runs w' s ctx h1) as (evsC & outC & HC & RC).
  destruct (Leader_runs w' s ctx h1) as (evsL & outL & HL & RL).
  rewrite HC, HL; cbn [snd].
  inversion Hrun; subst; cbn [bindAddress server] in *.
  eexists (_ :: _), _.
  inversion RC; subst; inversion RL; subst; cbn [bindAddress];
    do 4 eexists; (split; [reflexivity | split; reflexivity]).
Qed.

(** X4.  [NewNode] constructs one engine, first of all, and after that
    only configures that engine: at most a [SetDialFunc] and a
    [SetBindAddress] on it.  It never starts, stops or releases an engine
    and never touches the network - so when a setting fails, the engine
    just constructed is left unreleased. *)
Theorem NewNode_only_constructs_and_configures (info : client.NodeInfo)
    (dir : string) (options : list NodeOption) (h : History) :
  exists r rest,
    snd (NewNode w info dir options h) =
      h ++ EvNewNode (uint (client.ID info)) (client.Address info) dir r
           :: rest /\
    List.length rest <= 2 /\
    match r with
    | Err _ => rest = []
    | Ok srv => forallb (is_setting_on srv) rest = true
    end.
Proof.
  destruct (NewNode_runs w info dir options h) as (evs & out & Heq & Hrun).
  rewrite Heq; cbn [snd].
  inversion Hrun; subst.
  - do 2 eexists; split; [reflexivity |]. split; [cbn; auto | reflexivity].
  - do 2 eexists; split; [reflexivity |].
    split; [cbn; auto |]. cbn. now rewrite Nat.eqb_refl.
  - do 2 eexists; split; [reflexivity |].
    destruct (DialFunc _); cbn; rewrite ?Nat.eqb_refl; auto.
  - do 2 eexists; split; [reflexivity |].
    destruct (DialFunc _); cbn; rewrite ?Nat.eqb_refl; auto.
Qed.

(** X5.  The bind address of a constructed node is never the empty
    string, and it is the string the engine acknowledged. *)
Theorem bindAddress_is_never_empty (info : client.NodeInfo)
    (dir : string) (options : list NodeOption) (h h' : History)
    (s : Node) :
  NewNode w info dir options h = ((Some s, None), h') ->
  String.eqb (bindAddress s) "" = false /\
  In (EvSetBindAddress (server s) (bindAddress s) None) h'.
Proof.
  intros Hnew.
  destruct (NewNode_runs w info dir options h) as (evs & out & Heq & Hrun).
  rewrite Heq in Hnew. inversion Hnew; subst out h'.
  inversion Hrun; subst; cbn [bindAddress server]. split.
  - destruct (String.eqb (BindAddress _) "") eqn:E; [reflexivity | exact E].
  - apply in_or_app; right. right. apply in_or_app; right. left; reflexivity.
Qed.

End ConstructionFacts.

(** X6.  Nodes with different IDs get different default bind addresses:
    the default address determines the ID. *)
Theorem defaultBindAddress_determines_the_ID (a b : uint64) :
  defaultBindAddress a = defaultBindAddress b -> a = b.
Proof.
  unfold defaultBindAddress. cbn [String.append]. intros E.
  assert (E' : Sprintf_d a = Sprintf_d b) by congruence.
  pose proof (Sprintf_d_reads_back a) as Ha.
  pose proof (Sprintf_d_reads_back b) as Hb.
  rewrite E' in Ha. congruence.
Qed.

(** ** The network operations *)

Ltac perform_cases w op h Hrun :=
  let evs := fresh "evs" in
  let out := fresh "out" in
  let Heq := fresh "Heq" in
  destruct op as [s ctx | s ctx | s ctx store dial | ctx target store dial];
  [ rewrite !perform_Cluster;
    destruct (Cluster_runs w s ctx h) as (evs & out & Heq & Hrun)
  | rewrite !perform_Leader;
    destruct (Leader_runs w s ctx h) as (evs & out & Heq & Hrun)
  | cbn [perform];
    destruct (Join_runs w s ctx store dial h) as (evs & out & Heq & Hrun)
  | cbn [perform];
    destruct (Leave_runs w ctx target store dial h)
      as (evs & out & Heq & Hrun) ];
  rewrite !Heq; cbn [fst snd]; exists evs; (split; [reflexivity |]);
  inversion Hrun; subst.

Section NetworkFacts.
Context {wire : Wire}.
Variable w : World.

(** X7.  [Cluster], [Leader], [Join] and [Leave] never call the engine:
    they neither construct, configure, start, stop nor release one. *)
Theorem network_operations_leave_the_engine_alone (op : Operation)
    (h : History) :
  exists evs,
    snd (perform w op h) = h ++ evs /\ existsb is_engine evs = false.
Proof. perform_cases w op h Hrun; reflexivity. Qed.

(** X9.  The caller's context is the context of every connect and of
    every exchange the operation makes; no call is made under another
    context. *)
Theorem operations_pass_the_callers_context (op : Operation)
    (h : History) :
  exists evs,
    snd (perform w op h) = h ++ evs /\
    forall ev, In ev evs ->
      (is_connect ev = true \/ is_call ev = true ->
       event_ctx ev = Some (op_ctx op)) /\
      (event_ctx ev = None \/ event_ctx ev = Some (op_ctx op)).
Proof.
  perform_cases w op h Hrun; cbn [op_ctx];
    intros ev Hin; cbn in Hin;
    repeat (destruct Hin as [<- | Hin]); try contradiction;
    cbn; intuition congruence.
Qed.

(** X14.  An operation makes at most one exchange - [Join] at most two -
    and when it returns nil it has made all of them. *)
Theorem success_means_every_exchange_was_made (op : Operation)
    (h : History) :
  exists evs,
    snd (perform w op h) = h ++ evs /\
    List.length (filter is_call evs) <= exchanges op /\
    (fst (perform w op h) = None ->
     List.length (filter is_call evs) = exchanges op).
Proof.
  destruct op as [s ctx | s ctx | s ctx store dial | ctx target store dial].
  - rewrite !perform_Cluster.
    destruct (Cluster_runs w s ctx h) as (evs & out & Heq & Hrun).
    rewrite !Heq; cbn [fst snd]. exists evs. split; [reflexivity |].
    inversion Hrun; subst; cbn; split; auto; discriminate.
  - rewrite !perform_Leader.
    destruct (Leader_runs w s ctx h) as (evs & out & Heq & Hrun).
    rewrite !Heq; cbn [fst snd]. exists evs. split; [reflexivity |].
    inversion Hrun; subst; cbn; split; auto; discriminate.
  - cbn [perform].
    destruct (Join_runs w s ctx store dial h) as (evs & out & Heq & Hrun).
    rewrite !Heq; cbn [fst snd]. exists evs. split; [reflexivity |].
    inversion Hrun; subst; cbn; split; auto; discriminate.
  - cbn [perform].
    destruct (Leave_runs w ctx target store dial h)
      as (evs & out & Heq & Hrun).
    rewrite !Heq; cbn [fst snd]. exists evs. split; [reflexivity |].
    inversion Hrun; subst; cbn; split; auto; discriminate.
Qed.

(** X13.  When no connection is obtained, the failed attempt is the only
    call the operation makes - nothing is requested and nothing is
    closed - and the operation returns an error. *)
Theorem without_a_connection_nothing_else_happens (op : Operation)
    (h : History) (evs : list Event) :
  snd (perform w op h) = h ++ evs ->
  (forall ev, In ev evs -> opened ev = None) ->
  exists ev e e',
    evs = [ev] /\ is_connect ev = true /\ reported ev = Some e /\
    fst (perform w op h) = Some e'.
Proof.
  intros Hevs Hnone.
  destruct op as [s ctx | s ctx | s ctx store dial | ctx target store dial].
  - rewrite perform_Cluster in *; cbn [fst snd] in *.
    destruct (Cluster_runs w s ctx h) as (evs' & out & Heq & Hrun).
    rewrite Heq in *; cbn [fst snd] in *.
    apply app_inv_head in Hevs; subst evs'.
    inversion Hrun; subst;
      try (specialize (Hnone _ (or_introl eq_refl)); discriminate).
    do 3 eexists; repeat split.
  - rewrite perform_Leader in *; cbn [fst snd] in *.
    destruct (Leader_runs w s ctx h) as (evs' & out & Heq & Hrun).
    rewrite Heq in *; cbn [fst snd] in *.
    apply app_inv_head in Hevs; subst evs'.
    inversion Hrun; subst;
      try (specialize (Hnone _ (or_introl eq_refl)); discriminate).
    do 3 eexists; repeat split.
  - cbn [perform] in *.
    destruct (Join_runs w s ctx store dial h) as (evs' & out & Heq & Hrun).
    rewrite Heq in *; cbn [fst snd] in *.
    apply app_inv_head in Hevs; subst evs'.
    inversion Hrun; subst;
      try (specialize (Hnone _ (or_introl eq_refl)); discriminate).
    do 3 eexists; repeat split.
  - cbn [perform] in *.
    destruct (Leave_runs w ctx target store dial h)
      as (evs' & out & Heq & Hrun).
    rewrite Heq in *; cbn [fst snd] in *.
    apply app_inv_head in Hevs; subst evs'.
    inversion Hrun; subst;
      try (specialize (Hnone _ (or_introl eq_refl)); discriminate).
    do 3 eexists; repeat split.
Qed.

(** X10.  When [Cluster] succeeds, the list it returns is exactly what
    [DecodeNodes] read from the response of its one exchange; whenever it
    fails, the list is empty. *)
Theorem Cluster_returns_the_decoded_members (s : Node)
    (ctx : context.Context) (h : History) :
  match fst (Node_Cluster w s ctx h) with
  | (servers, None) =>
      exists c rq rs rq' rs',
        In (EvCall c ctx rq rs rq' rs' None)
           (snd (Node_Cluster w s ctx h)) /\
        DecodeNodes rs' = Ok servers
  | (servers, Some _) => servers = []
  end.
Proof.
  destruct (Cluster_runs w s ctx h) as (evs & out & Heq & Hrun).
  rewrite Heq; cbn [fst snd].
  inversion Hrun; subst; cbn [fst snd]; auto.
  do 5 eexists; split; [| eassumption].
  apply in_or_app; right. cbn; eauto.
Qed.

(** X11.  [Leave] asks a connector for a connection once.  If that fails
    it returns the connector's error and sends nothing.  Otherwise it
    makes exactly one exchange - the Remove request for the target ID,
    written into a fresh 4096-byte buffer - returns the outcome of that
    exchange unchanged and closes the connection. *)
Theorem Leave_sends_one_Remove (ctx : context.Context) (target : uint64)
    (store : client.NodeStore) (dial : client.DialFunc) (h : History) :
  exists connector r rest,
    snd (Leave w ctx target store dial h) =
      h ++ EvConnectorConnect connector ctx r :: rest /\
    match r with
    | Err e =>
        rest = [] /\ fst (Leave w ctx target store dial h) = Some e
    | Ok c =>
        exists rq rs r',
          rest =
            [EvCall c ctx
               (EncodeRemove (Message_Init Message_zero 4096) target)
               (Message_Init Message_zero 4096) rq rs r';
             EvProtocolClose c] /\
          fst (Leave w ctx target store dial h) = r'
    end.
Proof.
  destruct (Leave_runs w ctx target store dial h)
    as (evs & out & Heq & Hrun).
  rewrite Heq; cbn [fst snd].
  inversion Hrun; subst; do 3 eexists; (split; [reflexivity |]).
  - split; reflexivity.
  - do 3 eexists; split; reflexivity.
Qed.

End NetworkFacts.

(** ** The lifecycle methods *)

Section LifecycleFacts.
Context {wire : Wire}.
Variable w : World.

(** X8.  [BindAddress], [Start] and [Close] talk to the node's own engine
    and to nothing else: every call they make is a call on [s.server];
    they open no connection and exchange no message. *)
Theorem lifecycle_methods_stay_on_the_engine (s : Node) (m : Method)
    (h : History) :
  is_lifecycle m = true ->
  exists ev evs,
    snd (invoke w s m h) = h ++ ev :: evs /\
    forallb (on_server (server s)) (ev :: evs) = true.
Proof.
  intros Hm. destruct m; try discriminate; cbv [invoke]; unfold_facade.
  - do 2 eexists; split; [reflexivity |]. cbn. now rewrite Nat.eqb_refl.
  - do 2 eexists; split; [reflexivity |]. cbn. now rewrite Nat.eqb_refl.
  - destruct (w_Stop w h (server s)); cbn [fst snd].
    + do 2 eexists; split; [reflexivity |]. cbn. now rewrite Nat.eqb_refl.
    + do 2 eexists; split; [close_history |].
      cbn. now rewrite Nat.eqb_refl.
Qed.

Lemma invokeAll_Close_step (s : Node) (ms : list Method) (h : History) :
  snd (invokeAll w s (CallClose :: ms) h) =
    snd (invokeAll w s ms (snd (Node_Close w s h))).
Proof.
  cbn [invokeAll invoke]. unfold bind, ret.
  destruct (Node_Close w s h); reflexivity.
Qed.

(** X12.  [Close] keeps no record of having been called: each of [n]
    calls in a row sends a stop signal to the engine again, and the
    engine is released once for every stop it acknowledges - so twice
    when two stops are acknowledged. *)
Theorem every_Close_stops_the_engine_again (s : Node) (n : nat)
    (h : History) :
  exists evs,
    snd (invokeAll w s (repeat CallClose n) h) = h ++ evs /\
    List.length (filter is_stop evs) = n /\
    List.length (filter is_release evs) =
      List.length (filter is_acked_stop evs) /\
    forallb (on_server (server s)) evs = true.
Proof.
  revert h. induction n as [| n IH]; intros h.
  - exists []. cbn. rewrite app_nil_r. auto.
  - cbn [repeat]. rewrite invokeAll_Close_step.
    destruct (Close_runs w s h) as (evs1 & err & Heq & Hrun).
    rewrite Heq; cbn [snd].
    destruct (IH (h ++ evs1)) as (evs2 & H2 & Hstop & Hrel & Hsrv).
    exists (evs1 ++ evs2). rewrite H2, <- app_assoc.
    split; [reflexivity |].
    rewrite !filter_app, !length_app, forallb_app, Hstop, Hrel, Hsrv.
    inversion Hrun; subst; cbn; rewrite Nat.eqb_refl; auto.
Qed.

End LifecycleFacts.

(** ** From construction to joining *)

Section JoinFacts.
Context {wire : Wire}.
Variable w : World.

(** X15.  A node joins under the identity it was constructed with: the
    connector [Join] uses logs with the logger of the node's options, the
    Join request carries the ID and address of the [NodeInfo] given to
    [NewNode], and the Promote request carries that ID. *)
Theorem Join_announces_the_constructed_identity (info : client.NodeInfo)
    (dir : string) (options : list NodeOption) (h h' : History)
    (s : Node) (w' : World) (ctx : context.Context)
    (store : client.NodeStore) (dial : client.DialFunc) (h1 : History) :
  NewNode w info dir options h = ((Some s, None), h') ->
  exists r rest,
    snd (Node_Join w' s ctx store dial h1) =
      h1 ++ EvConnectorConnect
              (protocol.NewConnector 0%N store (connectorConfig dial)
                 (Log (applyOptions options defaultNodeOptions)))
              ctx r :: rest /\
    forall c ctx' rq rs rq' rs' r',
      In (EvCall c ctx' rq rs rq' rs' r') rest ->
      rq = EncodeJoin (Message_Init Message_zero 4096) (client.ID info)
             (client.Address info)
      \/ exists rq0, rq = EncodePromote rq0 (client.ID info).
Proof.
  intros Hnew.
  destruct (NewNode_runs w info dir options h) as (evs & out & Heq & Hrun).
  rewrite Heq in Hnew. inversion Hnew; subst out h'.
  destruct (Join_runs w' s ctx store dial h1) as (evsJ & errJ & HJ & RJ).
  rewrite HJ; cbn [snd].
  inversion Hrun; subst; cbn [log id address] in *.
  inversion RJ; subst; cbn [log id address];
    do 2 eexists; (split; [reflexivity |]);
    intros c0 ctx0 rq0 rs0 rq1 rs1 r1 Hin; cbn in Hin;
    repeat (destruct Hin as [Hin | Hin]; try discriminate);
    try contradiction;
    inversion Hin; subst; eauto.
Qed.

End JoinFacts.

(** ** Witnesses *)


(** X3, the witness: the same node, queried in the same world. *)
Lemma local_queries_dial_the_bound_address_witness :
  exists pre a rC restC rL restL,
    [@EvNewNode testWire 1%N "10.0.0.1:9001" "/var/lib/dqlite" (Ok 1);
     @EvSetBindAddress testWire 1 "@dqlite-1" None] =
      [] ++ pre ++ [EvSetBindAddress (server testNode) a None] /\
    snd (Node_Cluster calmWorld testNode testCtx []) =
      [] ++ EvConnect testCtx protocol.UnixDial a protocol.VersionLegacy rC
            :: restC /\
    snd (Node_Leader calmWorld testNode testCtx []) =
      [] ++ EvConnect testCtx protocol.UnixDial a protocol.VersionOne rL
            :: restL.
Proof.
  exact (local_queries_dial_the_bound_address calmWorld testInfo
           "/var/lib/dqlite" [] [] _ testNode calmWorld testCtx []
           eq_refl).
Defined.

(** X5, the witness: the node built with a bind-address override. *)
Lemma bindAddress_is_never_empty_witness :
  String.eqb (bindAddress overriddenNode) "" = false /\
  In (EvSetBindAddress (server overriddenNode)
        (bindAddress overriddenNode) None)
     [@EvNewNode testWire 1%N "10.0.0.1:9001" "/var/lib/dqlite" (Ok 1);
      @EvSetBindAddress testWire 1 "127.0.0.1:9001" None].
Proof.
  exact (bindAddress_is_never_empty calmWorld testInfo "/var/lib/dqlite"
           [WithNodeBindAddress "127.0.0.1:9001"] [] _ overriddenNode
           eq_refl).
Defined.

(** X6, the witness: the default address of node 7. *)
Lemma defaultBindAddress_determines_the_ID_witness : 7%N = 7%N.
Proof.
  exact (defaultBindAddress_determines_the_ID 7%N 7%N eq_refl).
Defined.

(** X8, the witness: closing a node whose engine stops. *)
Lemma lifecycle_methods_stay_on_the_engine_witness :
  exists ev evs,
    snd (invoke calmWorld testNode CallClose []) = [] ++ ev :: evs /\
    forallb (on_server (server testNode)) (ev :: evs) = true.
Proof.
  exact (lifecycle_methods_stay_on_the_engine calmWorld testNode CallClose
           [] eq_refl).
Defined.

(** X13, the witness: leaving when no peer can be reached. *)
Lemma without_a_connection_nothing_else_happens_witness :
  exists ev e e',
    [@EvConnectorConnect testWire
       (protocol.NewConnector 0%N testStore (connectorConfig None)
          client.DefaultLogFunc) testCtx
       (Err (errors.New "no available dqlite leader server found"))] =
      [ev] /\
    is_connect ev = true /\ reported ev = Some e /\
    fst (perform darkWorld (OpLeave testCtx 2%N testStore None) []) =
      Some e'.
Proof.
  apply (without_a_connection_nothing_else_happens darkWorld
           (OpLeave testCtx 2%N testStore None) []).
  - reflexivity.
  - intros ev [<- | []]. reflexivity.
Defined.

(** X15, the witness: the node built from [testInfo] joins. *)
Lemma Join_announces_the_constructed_identity_witness :
  exists r rest,
    snd (Node_Join calmWorld testNode testCtx testStore None []) =
      [] ++ EvConnectorConnect
              (protocol.NewConnector 0%N testStore (connectorConfig None)
                 (Log (applyOptions [] defaultNodeOptions)))
              testCtx r :: rest /\
    forall c ctx' rq rs rq' rs' r',
      In (@EvCall testWire c ctx' rq rs rq' rs' r') rest ->
      rq = EncodeJoin (Message_Init Message_zero 4096)
             (client.ID testInfo) (client.Address testInfo)
      \/ exists rq0, rq = EncodePromote rq0 (client.ID testInfo).
Proof.
  exact (Join_announces_the_constructed_identity calmWorld testInfo
           "/var/lib/dqlite" [] [] _ testNode calmWorld testCtx testStore
           None [] eq_refl).
Defined.

(** ** Options, once more: from the option list to the node *)

Section OptionFacts.
Context {wire : Wire}.
Variable w : World.

(** X16.  A node constructed from a list of options uses the last option
    of each kind: its logger is the last log option (the default logger
    when there is none), its bind address the last bind-address option
    (the address derived from the ID when there is none or it is empty),
    and the dial function handed to the engine, if any is handed over, is
    the last dial option. *)
Theorem NewNode_uses_the_last_option_of_each_kind
    (info : client.NodeInfo) (dir : string) (xs : list OptionSpec)
    (h h' : History) (s : Node) :
  NewNode w info dir (map optionOf xs) h = ((Some s, None), h') ->
  log s = lastLog xs client.DefaultLogFunc /\
  bindAddress s =
    (if String.eqb (lastBind xs "") ""
     then defaultBindAddress (client.ID info)
     else lastBind xs "") /\
  exists evs,
    h' = h ++ evs /\
    existsb is_SetDialFunc evs =
      match lastDial xs None with
      | Some _ => true
      | None => false
      end /\
    forall srv d r,
      In (EvSetDialFunc srv d r) evs ->
      srv = server s /\ d = lastDial xs None /\ r = None.
Proof.
  intros Hnew.
  destruct (NewNode_runs w info dir (map optionOf xs) h)
    as (evs & out & Heq & Hrun).
  rewrite Heq in Hnew. inversion Hnew; subst out h'.
  assert (Hres : forall ys o,
             applyOptions (map optionOf ys) o =
               {| Log := lastLog ys (Log o);
                  DialFunc := lastDial ys (DialFunc o);
                  BindAddress := lastBind ys (BindAddress o) |}).
  { induction ys as [| y ys IH]; intros o; [destruct o; reflexivity |].
    cbn [map applyOptions fold_left].
    change (fold_left _ (map optionOf ys) (optionOf y o))
      with (applyOptions (map optionOf ys) (optionOf y o)).
    rewrite IH. destruct y; reflexivity. }
  rewrite Hres in Hrun.
  cbn [Log DialFunc BindAddress defaultNodeOptions] in Hrun.
  inversion Hrun; subst; cbn [log bindAddress server].
  cbn [Log DialFunc BindAddress].
  split; [reflexivity | split; [reflexivity |]].
  eexists; split; [reflexivity |].
  destruct (lastDial xs None) as [d |]; cbn; split; try reflexivity.
  - intros srv d' r [Hin | [Hin | [Hin | []]]]; try discriminate.
    inversion Hin; subst. auto.
  - intros srv d' r [Hin | [Hin | []]]; discriminate.
Qed.

End OptionFacts.

(** X16, the witness: two log options and an override; the later logger
    wins. *)
Lemma NewNode_uses_the_last_option_of_each_kind_witness :
  log {| log := Some (client.userLogger 2); server := 1;
         acceptCh := make_chan error 1; id := 1%N;
         address := "10.0.0.1:9001"; bindAddress := "127.0.0.1:9001" |}
    = lastLog [OptLog (Some (client.userLogger 1));
               OptBind "127.0.0.1:9001";
               OptLog (Some (client.userLogger 2))]
        client.DefaultLogFunc /\
  bindAddress
    {| log := Some (client.userLogger 2); server := 1;
       acceptCh := make_chan error 1; id := 1%N;
       address := "10.0.0.1:9001"; bindAddress := "127.0.0.1:9001" |}
    = (if String.eqb
            (lastBind [OptLog (Some (client.userLogger 1));
                       OptBind "127.0.0.1:9001";
                       OptLog (Some (client.userLogger 2))] "") ""
       then defaultBindAddress (client.ID testInfo)
       else lastBind [OptLog (Some (client.userLogger 1));
                      OptBind "127.0.0.1:9001";
                      OptLog (Some (client.userLogger 2))] "") /\
  exists evs,
    [@EvNewNode testWire 1%N "10.0.0.1:9001" "/var/lib/dqlite" (Ok 1);
     EvSetBindAddress 1 "127.0.0.1:9001" None] = [] ++ evs /\
    existsb is_SetDialFunc evs =
      match lastDial [OptLog (Some (client.userLogger 1));
                      OptBind "127.0.0.1:9001";
                      OptLog (Some (client.userLogger 2))] None with
      | Some _ => true
      | None => false
      end /\
    forall srv d r,
      In (EvSetDialFunc srv d r) evs ->
      srv = 1 /\
      d = lastDial [OptLog (Some (client.userLogger 1));
                    OptBind "127.0.0.1:9001";
                    OptLog (Some (client.userLogger 2))] None /\
      r = None.
Proof.
  exact (NewNode_uses_the_last_option_of_each_kind calmWorld testInfo
           "/var/lib/dqlite"
           [OptLog (Some (client.userLogger 1)); OptBind "127.0.0.1:9001";
            OptLog (Some (client.userLogger 2))]
           [] _ _ eq_refl).
Defined.

(** ** Connections over many operations *)

Section SequenceFacts.
Context {wire : Wire}.
Variable w : World.

Lemma well_bracketed_app (current : option protocol.Protocol)
    (xs ys : list Event) :
  well_bracketed current xs = true ->
  well_bracketed None ys = true ->
  well_bracketed current (xs ++ ys) = true.
Proof.
  revert current. induction xs as [| ev xs IH]; intros current Hx Hy.
  - destruct current; [discriminate | exact Hy].
  - cbn [app well_bracketed] in *.
    destruct current as [c |], ev; try discriminate;
      try (destruct (Nat.eqb c _); cbn [andb] in *; try discriminate);
      apply IH; assumption.
Qed.

(** One operation keeps the discipline. *)
Lemma perform_well_bracketed (op : Operation) (h : History) :
  exists evs,
    snd (perform w op h) = h ++ evs /\ well_bracketed None evs = true.
Proof.
  perform_cases w op h Hrun; cbn; rewrite ?Nat.eqb_refl; reflexivity.
Qed.

(** X17.  However many of [Cluster], [Leader], [Join] and [Leave] are run
    one after the other, in any world: at most one connection is open at
    any time, every exchange goes over the connection that is open, only
    that connection is closed, and when the last operation has returned
    no connection is left open. *)
Theorem connections_never_leak_or_overlap (ops : list Operation)
    (h : History) :
  exists evs,
    snd (performAll w ops h) = h ++ evs /\
    well_bracketed None evs = true.
Proof.
  revert h. induction ops as [| op ops IH]; intros h.
  - exists []. cbn. rewrite app_nil_r. auto.
  - destruct (perform_well_bracketed op h) as (evs1 & H1 & B1).
    destruct (IH (h ++ evs1)) as (evs2 & H2 & B2).
    exists (evs1 ++ evs2). split.
    + cbn [performAll]. unfold bind, ret.
      destruct (perform w op h) as [e h1]. cbn [snd] in H1. subst h1.
      destruct (performAll w ops (h ++ evs1)) as [es h2].
      cbn [snd] in H2 |- *. rewrite H2, app_assoc. reflexivity.
    + apply well_bracketed_app; assumption.
Qed.

End SequenceFacts.
